(** * Auth manager: token vault, guards and consent-state token

    A shallow embedding of the credential vault of [app/]: the persistence
    layer ([app/db/repositories/token_vault.py]), the vault service
    ([app/services/token_vault.py]), the guard context managers
    ([app/core/guards.py]), the state-token service
    ([app/services/state_token.py]) and the operations built on them
    ([app/api/v1/], [app/core/security.py]).

    Python exceptions are values of [exn]; a computation that touches the
    database session or the identity provider is a function from a [World] to
    an [Outcome] and the [World] it leaves behind, so that what an operation
    did before it raised stays visible. *)

From stdpp Require Import base strings list gmap sorting.
From Stdlib Require Import ZArith.

Local Open Scope string_scope.
Local Open Scope Z_scope.

(** ** Python values *)

(** A [uuid.UUID] is represented by its canonical text, the value of
    [str(uuid)]; the code only compares UUIDs and prints them. *)
Definition UUID := string.

(** The values stored under a key of a [dict[str, Any]] that this code builds:
    strings and integers. *)
Inductive pyval :=
| VStr (s : string)
| VInt (z : Z).

#[global] Instance pyval_eq_dec : EqDecision pyval.
Proof. solve_decision. Defined.

Abbreviation dict := (gmap string pyval).

(** Truth value of an [Optional[str]]: [None] and the empty string are false. *)
Definition truthy (o : option string) : bool :=
  match o with
  | None => false
  | Some s => negb (String.eqb s "")
  end.

(** ** The error taxonomy ([app/core/errors.py], [app/core/exceptions.py]) *)

Inductive ErrorKeys :=
| internal_error
| keycloak_error
| keycloak_callback_error
| unauthorized
| token_not_active
| token_not_found
| validation_error
| invalid_request
| invalid_ack_state
| database_error.

(** [ErrorKeys.<member>.name] *)
Definition key_name (k : ErrorKeys) : string :=
  match k with
  | internal_error => "internal_error"
  | keycloak_error => "keycloak_error"
  | keycloak_callback_error => "keycloak_callback_error"
  | unauthorized => "unauthorized"
  | token_not_active => "token_not_active"
  | token_not_found => "token_not_found"
  | validation_error => "validation_error"
  | invalid_request => "invalid_request"
  | invalid_ack_state => "invalid_ack_state"
  | database_error => "database_error"
  end.

Definition all_error_keys : list ErrorKeys :=
  [internal_error; keycloak_error; keycloak_callback_error; unauthorized;
   token_not_active; token_not_found; validation_error; invalid_request;
   invalid_ack_state; database_error].

(** [errors_mapping]: the HTTP status of each key. *)
Definition errors_mapping (k : ErrorKeys) : Z :=
  match k with
  | keycloak_error => 502
  | keycloak_callback_error => 502
  | unauthorized => 401
  | token_not_active => 401
  | token_not_found => 404
  | validation_error => 400
  | invalid_request => 400
  | invalid_ack_state => 400
  | internal_error => 500
  | database_error => 502
  end.

(** [errors_mapping.get(code, 500)] as the exception handler calls it: the
    code is a string, looked up among the member values. *)
Definition status_of_code (code : string) : Z :=
  match list_find (λ k, key_name k = code) all_error_keys with
  | Some (_, k) => errors_mapping k
  | None => 500
  end.

(** The exception classes of [app/core/exceptions.py]. *)
Inductive ErrClass :=
| AuthManagerError
| KeycloakError
| InvalidStateTokenError
| TokenNotFoundError
| UnauthorizedError
| TokenNotActiveError
| ValidationError
| InvalidRequestError
| DatabaseError.

#[global] Instance ErrClass_eq_dec : EqDecision ErrClass.
Proof. solve_decision. Defined.

(** The default of the [code] parameter of each class's [__init__]. *)
Definition default_code (c : ErrClass) : string :=
  match c with
  | AuthManagerError => "error"
  | KeycloakError => key_name keycloak_error
  | InvalidStateTokenError => key_name invalid_ack_state
  | TokenNotFoundError => key_name token_not_found
  | UnauthorizedError => key_name unauthorized
  | TokenNotActiveError => key_name token_not_active
  | ValidationError => key_name validation_error
  | InvalidRequestError => key_name invalid_request
  | DatabaseError => key_name database_error
  end.

(** An instance of [AuthManagerError] or of one of its subclasses. *)
Record AuthErr := mkAuthErr {
  err_class : ErrClass;
  message : string;
  code : string;
  details : dict
}.

(** [cls(message, code, details)] with the defaults of [__init__]:
    [code] defaults to the class's key, [details or {}]. *)
Definition new_error (cls : ErrClass) (msg : string)
    (code : option string) (details : option dict) : AuthErr :=
  {| err_class := cls;
     message := msg;
     code := default (default_code cls) code;
     details := default ∅ details |}.

(** Python exceptions that reach this code. *)
Inductive exn :=
| AuthManagerExc (e : AuthErr)
| NoResultFound                      (* sqlalchemy.exc *)
| MultipleResultsFound               (* sqlalchemy.exc *)
| IntegrityError                     (* sqlalchemy.exc, primary key *)
| AssertionError
| TypeError (msg : string)
| KeyError (key : string)
| InvalidTokenError (msg : string)   (* jwt, with its subclasses *)
| PydanticValidationError
| OtherError (name : string).        (* anything else a collaborator raises *)

Definition raised_as (cls : ErrClass) (msg : string) : exn :=
  AuthManagerExc (new_error cls msg None None).

(** The machine-readable kind of a failure as the exception handlers of
    [app/core/exceptions_handler.py] report it: the code of a domain error,
    [internal_error] for everything else. *)
Definition kind_of (e : exn) : string :=
  match e with
  | AuthManagerExc a => code a
  | _ => key_name internal_error
  end.

(** ** Outcomes and stateful computations *)

Inductive Outcome (A : Type) :=
| Returns (a : A)
| Raises (e : exn).
Arguments Returns {A} a.
Arguments Raises {A} e.

Inductive TokenType := OFFLINE | REFRESH.

#[global] Instance TokenType_eq_dec : EqDecision TokenType.
Proof. solve_decision. Defined.

(** A row of the [auth_vault] table ([app/db/models.py]). Timestamps are
    seconds on the database clock. *)
Module AuthVault.
Record t := mk {
  id : UUID;
  user_id : UUID;
  token_type : TokenType;
  encrypted_token : option string;
  iv : option string;
  token_hash : option string;
  attributes : option dict;
  session_state_id : string;
  created_at : Z;
  updated_at : option Z
}.
End AuthVault.

(** The domain model [VaultEntry] ([app/models/domain.py]). *)
Module VaultEntry.
Record t := mk {
  id : UUID;
  user_id : UUID;
  token_type : TokenType;
  encrypted_token : option string;
  iv : option string;
  token_hash : option string;
  attributes : option dict;
  session_state_id : string;
  created_at : Z;
  updated_at : option Z
}.

(** [VaultEntry.model_validate(row)] with [from_attributes = True]: the
    fields are read off the row one by one. *)
Definition model_validate (r : AuthVault.t) : t :=
  {| id := AuthVault.id r;
     user_id := AuthVault.user_id r;
     token_type := AuthVault.token_type r;
     encrypted_token := AuthVault.encrypted_token r;
     iv := AuthVault.iv r;
     token_hash := AuthVault.token_hash r;
     attributes := AuthVault.attributes r;
     session_state_id := AuthVault.session_state_id r;
     created_at := AuthVault.created_at r;
     updated_at := AuthVault.updated_at r |}.
End VaultEntry.

(** Requests sent to the identity provider, in the order they were made. *)
Inductive UpstreamCall :=
| Introspect (token : string)
| RefreshGrant (refresh_token : string)
| ClientCredentialsGrant
| DeleteSession (session_id : string).

#[global] Instance UpstreamCall_eq_dec : EqDecision UpstreamCall.
Proof. solve_decision. Defined.

(** What an operation can observe and change: the rows of [auth_vault] as the
    session sees them, the failures the database will answer the next
    statements with (one entry per statement, [None] or a missing entry for a
    statement that goes through), and the requests made upstream so far. *)
Record World := mkWorld {
  vault : list AuthVault.t;
  db_faults : list (option exn);
  upstream : list UpstreamCall
}.

Definition M (A : Type) : Type := World → Outcome A * World.

Definition ret {A} (a : A) : M A := λ w, (Returns a, w).

Definition raise {A} (e : exn) : M A := λ w, (Raises e, w).

Definition bind {A B} (c : M A) (k : A → M B) : M B :=
  λ w, match c w with
       | (Returns a, w') => k a w'
       | (Raises e, w') => (Raises e, w')
       end.

Notation "x <- c ;; k" := (bind c (λ x, k))
  (at level 100, c at next level, right associativity).

(** [try: body / except: handler] *)
Definition try_except {A} (body : M A) (handler : exn → M A) : M A :=
  λ w, match body w with
       | (Returns a, w') => (Returns a, w')
       | (Raises e, w') => handler e w'
       end.

(** A pure result lifted into a computation. *)
Definition lift {A} (o : Outcome A) : M A := λ w, (o, w).

(** [assert value is not None], after which the value is used. *)
Definition assert_is_not_none {A} (value : option A) : M A :=
  match value with
  | Some a => ret a
  | None => raise AssertionError
  end.

(** ** Guards ([app/core/guards.py]) *)

(** [with raise_if_not_found_guard(exc): body] *)
Definition raise_if_not_found_guard {A} (exc : exn) (body : M A) : M A :=
  try_except body
    (λ err, match err with
            | NoResultFound => raise exc
            | _ => raise err
            end).

(** [with invariant_guard(value, condition, exc) as v: body]: [condition]
    tells when the invariant is violated. *)
Definition invariant_guard {T A} (value : T) (condition : T → bool) (exc : exn)
    (body : T → M A) : M A :=
  if condition value then raise exc else body value.

(** [ex.message or error_message] *)
Definition message_or (m error_message : string) : string :=
  if String.eqb m "" then error_message else m.

(** [with auth_error_guard(exc, error_message): body] *)
Definition auth_error_guard {A} (exc : option ErrClass) (error_message : string)
    (body : M A) : M A :=
  try_except body
    (λ err, match err with
            | AuthManagerExc ex =>
                match exc with
                | Some cls => raise (AuthManagerExc (new_error cls error_message None None))
                | None =>
                    raise (AuthManagerExc
                             (new_error AuthManagerError
                                (message_or (message ex) error_message)
                                (Some (code ex))
                                (Some (details ex))))
                end
            | _ => raise err
            end).

(** ** The vault repository ([app/db/repositories/token_vault.py]) *)

(** What a call draws from its surroundings: the value of [uuid.uuid4()] for
    a new row, the reading of the database clock ([func.now()]) and the value
    of [generate_iv()]. *)
Record Ambient := mkAmbient {
  fresh_uuid : UUID;
  db_now : Z;
  fresh_iv : string
}.

(** One statement sent through the session ([session.execute], [flush],
    [refresh]): the database answers with the failure pending for it, if any;
    otherwise the statement runs on the rows. *)
Definition execute {A} (stmt : list AuthVault.t → Outcome A * list AuthVault.t) : M A :=
  λ w, match db_faults w with
       | Some e :: rest => (Raises e, mkWorld (vault w) rest (upstream w))
       | pending =>
           let (a, rows) := stmt (vault w) in
           (a, mkWorld rows (tail pending) (upstream w))
       end.

(** [result.scalar_one()] *)
Definition scalar_one {A} (result : list A) : Outcome A :=
  match result with
  | [] => Raises NoResultFound
  | [row] => Returns row
  | _ => Raises MultipleResultsFound
  end.

(** [result.scalar_one_or_none()] *)
Definition scalar_one_or_none {A} (result : list A) : Outcome (option A) :=
  match result with
  | [] => Returns None
  | [row] => Returns (Some row)
  | _ => Raises MultipleResultsFound
  end.

(** [if token_type: query = query.where(AuthVault.token_type == token_type)];
    both members of [TokenType] are non-empty strings, hence true. *)
Definition where_token_type (token_type : option TokenType)
    (rows : list AuthVault.t) : list AuthVault.t :=
  match token_type with
  | Some t => filter (λ r, AuthVault.token_type r = t) rows
  | None => rows
  end.

(** [if exclude_id: query = query.where(AuthVault.id != exclude_id)]; a UUID
    is always true. *)
Definition where_id_is_not (exclude_id : option UUID)
    (rows : list AuthVault.t) : list AuthVault.t :=
  match exclude_id with
  | Some i => filter (λ r, AuthVault.id r ≠ i) rows
  | None => rows
  end.

(** [AuthVault.created_at.desc()]: [a] may come before [b]. *)
Definition created_at_desc (a b : AuthVault.t) : Prop :=
  AuthVault.created_at b ≤ AuthVault.created_at a.

#[global] Instance created_at_desc_dec a b : Decision (created_at_desc a b).
Proof. unfold created_at_desc. apply _. Defined.

(** [query.order_by(AuthVault.created_at.desc())] *)
Definition order_by_created_at_desc (rows : list AuthVault.t) : list AuthVault.t :=
  merge_sort created_at_desc rows.

Module VaultRepository.

Definition create (amb : Ambient) (user_id : UUID) (token_type : TokenType)
    (encrypted_token iv token_hash session_state_id : string)
    (attributes : option dict) : M VaultEntry.t :=
  let entry :=
    {| AuthVault.id := fresh_uuid amb;
       AuthVault.user_id := user_id;
       AuthVault.token_type := token_type;
       AuthVault.encrypted_token := Some encrypted_token;
       AuthVault.iv := Some iv;
       AuthVault.token_hash := Some token_hash;
       AuthVault.attributes := attributes;
       AuthVault.session_state_id := session_state_id;
       AuthVault.created_at := db_now amb;
       AuthVault.updated_at := None |} in
  (* session.add(entry); flush(): the INSERT, refused on a taken primary key *)
  _ <- execute (λ rows,
         if bool_decide (Exists (λ r, AuthVault.id r = AuthVault.id entry) rows)
         then (Raises IntegrityError, rows)
         else (Returns tt, (rows ++ [entry])%list)) ;;
  (* session.refresh(entry) *)
  _ <- execute (λ rows, (Returns tt, rows)) ;;
  ret (VaultEntry.model_validate entry).

Definition retrieve (token_id : UUID) : M VaultEntry.t :=
  result <- execute (λ rows,
              (Returns (filter (λ r, AuthVault.id r = token_id) rows), rows)) ;;
  entry <- lift (scalar_one result) ;;
  ret (VaultEntry.model_validate entry).

Definition retrieve_by_user_id (user_id : UUID) (token_type : option TokenType)
  : M (option VaultEntry.t) :=
  result <- execute (λ rows,
              (Returns (order_by_created_at_desc
                          (where_token_type token_type
                             (filter (λ r, AuthVault.user_id r = user_id) rows))),
               rows)) ;;
  entry <- lift (scalar_one_or_none result) ;;
  ret (VaultEntry.model_validate <$> entry).

Definition retrieve_or_raise_by_session_state_id (session_state_id : string)
    (token_type : option TokenType) : M VaultEntry.t :=
  result <- execute (λ rows,
              (Returns (where_token_type token_type
                          (filter (λ r, AuthVault.session_state_id r = session_state_id) rows)),
               rows)) ;;
  entry <- lift (scalar_one result) ;;
  ret (VaultEntry.model_validate entry).

Definition retrieve_by_session_state_id (session_state_id : string)
    (token_type : option TokenType) : M (option VaultEntry.t) :=
  result <- execute (λ rows,
              (Returns (where_token_type token_type
                          (filter (λ r, AuthVault.session_state_id r = session_state_id) rows)),
               rows)) ;;
  entry <- lift (scalar_one_or_none result) ;;
  ret (VaultEntry.model_validate <$> entry).

Definition get_all_by_session_state_id (session_state_id : string)
    (exclude_id : option UUID) (token_type : option TokenType)
  : M (list VaultEntry.t) :=
  entries <- execute (λ rows,
               (Returns (where_token_type token_type
                           (where_id_is_not exclude_id
                              (filter (λ r, AuthVault.session_state_id r = session_state_id) rows))),
                rows)) ;;
  ret (VaultEntry.model_validate <$> entries).

Definition check_duplicate_token_hash (token_hash : string) (exclude_id : UUID)
  : M bool :=
  result <- execute (λ rows,
              (Returns (filter (λ r, AuthVault.token_hash r = Some token_hash
                                     ∧ AuthVault.id r ≠ exclude_id) rows),
               rows)) ;;
  entry <- lift (scalar_one_or_none result) ;;
  ret (bool_decide (is_Some entry)).

(** The [UPDATE ... WHERE id = :id] of [upsert_refresh_token]; [updated_at]
    has [onupdate=func.now()]. *)
Definition update_values (amb : Ambient) (i : UUID)
    (encrypted_token iv token_hash session_state_id : string)
    (attributes : option dict) (r : AuthVault.t) : AuthVault.t :=
  if decide (AuthVault.id r = i) then
    {| AuthVault.id := AuthVault.id r;
       AuthVault.user_id := AuthVault.user_id r;
       AuthVault.token_type := AuthVault.token_type r;
       AuthVault.encrypted_token := Some encrypted_token;
       AuthVault.iv := Some iv;
       AuthVault.token_hash := Some token_hash;
       AuthVault.attributes := attributes;
       AuthVault.session_state_id := session_state_id;
       AuthVault.created_at := AuthVault.created_at r;
       AuthVault.updated_at := Some (db_now amb) |}
  else r.

Definition upsert_refresh_token (amb : Ambient) (user_id : UUID)
    (encrypted_token iv token_hash session_state_id : string)
    (attributes : option dict) : M string :=
  existing <- retrieve_by_user_id user_id (Some REFRESH) ;;
  match existing with
  | Some existing =>
      _ <- execute (λ rows,
             (Returns tt,
              update_values amb (VaultEntry.id existing)
                encrypted_token iv token_hash session_state_id attributes <$> rows)) ;;
      ret (VaultEntry.id existing)
  | None =>
      entry <- create amb user_id REFRESH encrypted_token iv token_hash
                 session_state_id attributes ;;
      ret (VaultEntry.id entry)
  end.

Definition delete (i : UUID) : M bool :=
  rowcount <- execute (λ rows,
                (Returns (length (filter (λ r, AuthVault.id r = i) rows)),
                 filter (λ r, AuthVault.id r ≠ i) rows)) ;;
  (* session.flush(): nothing is pending *)
  ret (bool_decide (0 < rowcount)%nat).

End VaultRepository.

(** ** The vault service ([app/services/token_vault.py]) *)

(** The encryption service the vault service is constructed with
    ([app.services.encryption]); [generate_iv()] is [fresh_iv]. The token is
    whatever the caller passes, which at one call site is an
    [Optional[str]]. *)
Record EncryptionService := mkEncryptionService {
  encrypt_token : option string → string → Outcome string;
  decrypt_token : string → string → Outcome string;
  hash_token : option string → Outcome string
}.

(** [lambda e: not e.encrypted_token or not e.iv] *)
Definition no_encrypted_data (e : VaultEntry.t) : bool :=
  negb (truthy (VaultEntry.encrypted_token e)) || negb (truthy (VaultEntry.iv e)).

Module VaultService.
Section WithEncryption.
Context (encryption : EncryptionService).

Definition store (amb : Ambient) (user_id : UUID) (token : option string)
    (token_type : TokenType) (session_state_id : string)
    (attributes : option dict) : M VaultEntry.t :=
  let iv := fresh_iv amb in
  encrypted_token <- lift (encrypt_token encryption token iv) ;;
  token_hash <- lift (hash_token encryption token) ;;
  VaultRepository.create amb user_id token_type encrypted_token iv token_hash
    session_state_id attributes.

Definition retrieve_and_decrypt (token_id : UUID) : M (VaultEntry.t * string) :=
  entry <- raise_if_not_found_guard (raised_as TokenNotFoundError "Token not found")
             (VaultRepository.retrieve token_id) ;;
  decrypted_token <-
    invariant_guard entry no_encrypted_data
      (raised_as TokenNotFoundError "Token has no encrypted data")
      (λ en,
         encrypted_token <- assert_is_not_none (VaultEntry.encrypted_token en) ;;
         iv <- assert_is_not_none (VaultEntry.iv en) ;;
         lift (decrypt_token encryption encrypted_token iv)) ;;
  ret (entry, decrypted_token).

Definition upsert_refresh_token (amb : Ambient) (user_id : UUID)
    (token : option string) (session_state_id : string)
    (attributes : option dict) : M string :=
  let iv := fresh_iv amb in
  encrypted_token <- lift (encrypt_token encryption token iv) ;;
  token_hash <- lift (hash_token encryption token) ;;
  VaultRepository.upsert_refresh_token amb user_id encrypted_token iv token_hash
    session_state_id attributes.

Definition retrieve_or_raise_by_session_state_id (session_state_id : string)
    (token_type : option TokenType) : M (VaultEntry.t * string) :=
  entry <- raise_if_not_found_guard
             (AuthManagerExc
                (new_error DatabaseError "No token found for the session/type requested"
                   (Some "entity_not_found") None))
             (VaultRepository.retrieve_or_raise_by_session_state_id
                session_state_id token_type) ;;
  invariant_guard entry no_encrypted_data
    (raised_as TokenNotFoundError "Token has no encrypted data")
    (λ e,
       encrypted_token <- assert_is_not_none (VaultEntry.encrypted_token e) ;;
       iv <- assert_is_not_none (VaultEntry.iv e) ;;
       decrypted_token <- lift (decrypt_token encryption encrypted_token iv) ;;
       ret (entry, decrypted_token)).

Definition retrieve_by_session_state_id (session_state_id : string)
    (token_type : option TokenType) : M (option (VaultEntry.t * string)) :=
  entry <- VaultRepository.retrieve_by_session_state_id session_state_id token_type ;;
  match entry with
  | Some entry =>
      encrypted_token <- assert_is_not_none (VaultEntry.encrypted_token entry) ;;
      iv <- assert_is_not_none (VaultEntry.iv entry) ;;
      decrypted_token <- lift (decrypt_token encryption encrypted_token iv) ;;
      ret (Some (entry, decrypted_token))
  | None => ret None
  end.

Definition get_by_user_id (user_id : UUID) (token_type : option TokenType)
  : M (option (VaultEntry.t * string)) :=
  entry <- raise_if_not_found_guard
             (raised_as DatabaseError "No Token found for the user/type requested")
             (entry <- VaultRepository.retrieve_by_user_id user_id token_type ;;
              (* assert entry *)
              assert_is_not_none entry) ;;
  invariant_guard entry no_encrypted_data
    (raised_as ValidationError "Token has no encrypted data")
    (λ en,
       encrypted_token <- assert_is_not_none (VaultEntry.encrypted_token en) ;;
       iv <- assert_is_not_none (VaultEntry.iv en) ;;
       decrypted_token <- lift (decrypt_token encryption encrypted_token iv) ;;
       ret (Some (en, decrypted_token))).

Definition delete_token (token_id : UUID) : M bool :=
  VaultRepository.delete token_id.

Definition check_shared_token (session_state_id : string) (exclude_id : UUID)
    (token_type : option TokenType) : M bool :=
  shared_sessions <- VaultRepository.get_all_by_session_state_id session_state_id
                       (Some exclude_id) token_type ;;
  ret (bool_decide (0 < length shared_sessions)%nat).

End WithEncryption.
End VaultService.

(** ** The identity provider ([app/services/keycloak.py]) *)

Module KeycloakTokenResponse.
Record t := mk {
  access_token : string;
  expires_in : Z;
  refresh_expires_in : option Z;
  refresh_token : option string;
  token_type : string;
  id_token : option string;
  not_before_policy : Z;
  scope : option string;
  session_state : string
}.
End KeycloakTokenResponse.

Module TokenIntrospection.
Record t := mk {
  active : bool;
  exp : option Z;
  iat : option Z;
  sub : option UUID;
  sid : option string;
  scope : option string;
  client_id : option string;
  username : option string;
  token_type : option string
}.
End TokenIntrospection.

(** What a call of the provider's SDK comes back with: the response parsed
    into its model, a [KeycloakPostError] with the provider's status and
    body, or another exception. *)
Inductive SdkReply (A : Type) :=
| SdkResult (a : A)
| KeycloakPostError (response_code : Z) (response_body : string)
| SdkRaises (e : exn).
Arguments SdkResult {A} a.
Arguments KeycloakPostError {A} response_code response_body.
Arguments SdkRaises {A} e.

(** The provider as the gateway sees it: its answer to each request. *)
Record Provider := mkProvider {
  a_introspect : string → SdkReply TokenIntrospection.t;
  a_refresh_token : string → SdkReply KeycloakTokenResponse.t;
  a_token_client_credentials : SdkReply string;
  (* DELETE .../sessions/{session_id}?isOffline=true: status code and text *)
  delete_session : string → Z * string
}.

Definition call_upstream (c : UpstreamCall) : M unit :=
  λ w, (Returns tt, mkWorld (vault w) (db_faults w) (upstream w ++ [c])%list).

(** [except KeycloakPostError as e: raise KeycloakError(msg, details=...)] *)
Definition from_sdk {A} (msg : string) (reply : SdkReply A) : M A :=
  match reply with
  | SdkResult a => ret a
  | KeycloakPostError response_code response_body =>
      raise (AuthManagerExc
               (new_error KeycloakError msg None
                  (Some {[ "code" := VInt response_code;
                           "body" := VStr response_body ]})))
  | SdkRaises e => raise e
  end.

Module KeycloakService.

Definition refresh_access_token (keycloak : Provider) (refresh_token : string)
  : M KeycloakTokenResponse.t :=
  _ <- call_upstream (RefreshGrant refresh_token) ;;
  from_sdk "Token refresh failed" (a_refresh_token keycloak refresh_token).

Definition introspect_token (keycloak : Provider) (token : string)
  : M TokenIntrospection.t :=
  _ <- call_upstream (Introspect token) ;;
  from_sdk "Token introspection failed" (a_introspect keycloak token).

Definition _get_admin_token (keycloak : Provider) : M string :=
  _ <- call_upstream ClientCredentialsGrant ;;
  from_sdk "Admin token request failed" (a_token_client_credentials keycloak).

Definition revoke_session (keycloak : Provider) (session_id : string) : M unit :=
  admin_token <- _get_admin_token keycloak ;;
  _ <- call_upstream (DeleteSession session_id) ;;
  let (status_code, text) := delete_session keycloak session_id in
  if bool_decide (status_code ∈ [200; 204]) then ret tt
  else raise (AuthManagerExc
                (new_error KeycloakError "Session revocation failed" None
                   (Some {[ "error" := VStr text ]}))).

End KeycloakService.

(** ** Request authentication ([app/core/security.py]) *)

(** The first digit of the fourth group in the RFC 4122 variant: the two
    highest bits of the clock sequence are [10]. *)
Definition rfc_4122_digits : list string := ["8"; "9"; "a"; "b"].

(** [uuid.UUID.version] on the canonical text
    [xxxxxxxx-xxxx-Mxxx-Nxxx-xxxxxxxxxxxx]: the digit [M], given for the
    RFC 4122 variant only, [None] for the other variants. *)
Definition uuid_version (u : UUID) : option string :=
  if bool_decide (String.substring 19 1 u ∈ rfc_4122_digits)
  then Some (String.substring 14 1 u)
  else None.

(** What pydantic's [UUID4] asks of a [UUID]: [version == 4]. *)
Definition is_uuid4 (u : UUID) : bool :=
  bool_decide (uuid_version u = Some "4").

Module ValidatedToken.
Record t := mk {
  user_id : UUID;
  session_state_id : string;
  access_token : string
}.

(** [ValidatedToken(user_id=..., session_state_id=..., access_token=...)]:
    the model declares [user_id: UUID4], the other two fields are [str]. *)
Definition validate (user_id : UUID) (session_state_id access_token : string)
  : Outcome t :=
  if is_uuid4 user_id then Returns (mk user_id session_state_id access_token)
  else Raises PydanticValidationError.
End ValidatedToken.

(** [fastapi.security.HTTPAuthorizationCredentials] *)
Module HTTPAuthorizationCredentials.
Record t := mk {
  scheme : string;
  credentials : string
}.
End HTTPAuthorizationCredentials.

Definition lower_ascii (c : Ascii.ascii) : Ascii.ascii :=
  let n := Ascii.N_of_ascii c in
  if ((65 <=? n) && (n <=? 90))%N then Ascii.ascii_of_N (n + 32) else c.

(** [str.lower()] on ASCII text *)
Fixpoint lower (s : string) : string :=
  match s with
  | EmptyString => EmptyString
  | String c rest => String (lower_ascii c) (lower rest)
  end.

Section Security.
(** The value of ["scheme" in e] on the credentials object. *)
Variable scheme_in : HTTPAuthorizationCredentials.t → bool.

(** [lambda e: "scheme" in e and e.scheme.lower() != "bearer"] *)
Definition scheme_is_not_bearer (e : HTTPAuthorizationCredentials.t) : bool :=
  scheme_in e && negb (String.eqb (lower (HTTPAuthorizationCredentials.scheme e)) "bearer").

Definition get_bearer_token (credentials : option HTTPAuthorizationCredentials.t)
  : M string :=
  invariant_guard credentials (λ e, bool_decide (e = None))
    (raised_as UnauthorizedError "Authorization header is required")
    (λ _,
       credentials <- assert_is_not_none credentials ;;
       _ <- invariant_guard credentials scheme_is_not_bearer
              (raised_as UnauthorizedError
                 "Invalid authentication scheme. Expected: Bearer")
              (λ _, ret tt) ;;
       ret (HTTPAuthorizationCredentials.credentials credentials)).

Definition get_validated_token (keycloak : Provider)
    (credentials : option HTTPAuthorizationCredentials.t) : M ValidatedToken.t :=
  credentials <-
    invariant_guard credentials (λ e, bool_decide (e = None))
      (raised_as UnauthorizedError "Authorization header is required")
      (λ _,
         credentials <- assert_is_not_none credentials ;;
         (* the guard is given a string to raise *)
         _ <- invariant_guard credentials scheme_is_not_bearer
                (TypeError "exceptions must derive from BaseException")
                (λ _, ret tt) ;;
         ret credentials) ;;
  let bearer_token := HTTPAuthorizationCredentials.credentials credentials in
  token_info <- KeycloakService.introspect_token keycloak bearer_token ;;
  _ <- invariant_guard token_info (λ e, negb (TokenIntrospection.active e))
         (AuthManagerExc
            (new_error TokenNotActiveError "Token is not active"
               (Some "token_not_active") None))
         (λ _, ret tt) ;;
  user_id <- invariant_guard token_info
               (λ e, bool_decide (TokenIntrospection.sub e = None))
               (raised_as InvalidRequestError "Token missing required claim: sub")
               (λ _, assert_is_not_none (TokenIntrospection.sub token_info)) ;;
  invariant_guard token_info
    (λ e, bool_decide (TokenIntrospection.sid e = None))
    (raised_as InvalidRequestError "Token missing required claim: session_state")
    (λ _,
       sid <- assert_is_not_none (TokenIntrospection.sid token_info) ;;
       lift (ValidatedToken.validate user_id sid bearer_token)).

End Security.

(** ** Operations ([app/api/v1/]) *)

(** [app.models.api.Ok] *)
Record Ok (T : Type) := mkOk { data : T }.
Arguments mkOk {T} data.
Arguments data {T} o.

Module ValidationResponse.
Record t := mk { valid : bool }.
End ValidationResponse.

Module RefreshTokenIdResult.
Record t := mk { persistent_token_id : string }.
End RefreshTokenIdResult.

Module OfflineTokenRevocationResponse.
Record t := mk {
  message : string;
  persistent_token_id : UUID;
  token_deleted : bool;
  session_revoked : bool;
  had_shared_session : bool
}.
End OfflineTokenRevocationResponse.

(** [GET /validate-token]; [token] is the value of the [BearerToken]
    dependency, [get_bearer_token]. *)
Definition validate_token (token : string) (keycloak : Provider)
  : M (Ok ValidationResponse.t) :=
  introspection_result <- KeycloakService.introspect_token keycloak token ;;
  _ <- invariant_guard introspection_result
         (λ e, negb (TokenIntrospection.active e))
         (raised_as TokenNotActiveError "Token is not active")
         (λ _, ret tt) ;;
  ret (mkOk (ValidationResponse.mk true)).

(** [POST /refresh-token-id] *)
Definition make_new_refresh_token_id (amb : Ambient)
    (validated_token : ValidatedToken.t) (keycloak : Provider)
    (vault : EncryptionService) : M (Ok RefreshTokenIdResult.t) :=
  let user_id := ValidatedToken.user_id validated_token in
  let session_id := ValidatedToken.session_state_id validated_token in
  found <- auth_error_guard None "No refresh token was found with this session"
             (VaultService.retrieve_or_raise_by_session_state_id vault
                session_id (Some REFRESH)) ;;
  let (entry, decrypted_token) := found : VaultEntry.t * string in
  new_token_response <-
    invariant_guard entry no_encrypted_data
      (AuthManagerExc
         (new_error TokenNotFoundError "No encrypted refresh token was found"
            (Some (key_name token_not_found)) None))
      (λ _, KeycloakService.refresh_access_token keycloak decrypted_token) ;;
  invariant_guard new_token_response
    (λ e, bool_decide (KeycloakTokenResponse.refresh_token e ≠ None))
    (raised_as KeycloakError "No refresh token was generated")
    (λ _,
       new_token_id <-
         VaultService.upsert_refresh_token vault amb user_id
           (KeycloakTokenResponse.refresh_token new_token_response)
           (KeycloakTokenResponse.session_state new_token_response)
           (Some {[ "session_id" := VStr session_id ]}) ;;
       ret (mkOk (RefreshTokenIdResult.mk new_token_id))).

(** [DELETE /offline-token-id] *)
Definition revoke_offline_token (keycloak : Provider) (vault : EncryptionService)
    (id : UUID) : M (Ok OfflineTokenRevocationResponse.t) :=
  found <- auth_error_guard (Some TokenNotFoundError) "No offline token was found"
             (VaultService.retrieve_and_decrypt vault id) ;;
  let entry := found.1 in
  deleted <- auth_error_guard (Some DatabaseError) "Delete operation failed"
               (VaultService.delete_token (VaultEntry.id entry)) ;;
  census <-
    auth_error_guard (Some KeycloakError)
      ("Revoke session " +:+ VaultEntry.session_state_id entry
         +:+ " for token " +:+ VaultEntry.id entry +:+ " failed")
      (had_shared_session <-
         VaultService.check_shared_token (VaultEntry.session_state_id entry)
           (VaultEntry.id entry) (Some OFFLINE) ;;
       if negb had_shared_session then
         _ <- KeycloakService.revoke_session keycloak
                (VaultEntry.session_state_id entry) ;;
         ret (had_shared_session, true)
       else ret (had_shared_session, false)) ;;
  let (had_shared_session, session_revoked) := census : bool * bool in
  ret (mkOk
         {| OfflineTokenRevocationResponse.message := "Offline token revoked successfully";
            OfflineTokenRevocationResponse.persistent_token_id := VaultEntry.id entry;
            OfflineTokenRevocationResponse.token_deleted := deleted;
            OfflineTokenRevocationResponse.session_revoked := session_revoked;
            OfflineTokenRevocationResponse.had_shared_session := had_shared_session |}).

(** ** Sequences of upserts *)

(** One call of [upsert_refresh_token] for a user: what it draws from its
    surroundings and its arguments. *)
Record UpsertCall := mkUpsertCall {
  call_ambient : Ambient;
  call_token : option string;
  call_session_state_id : string;
  call_attributes : option dict
}.

(** The calls made one after the other for one user; the run stops at the
    first call that raises. *)
Fixpoint upsert_all (encryption : EncryptionService) (user_id : UUID)
    (calls : list UpsertCall) : M (list string) :=
  match calls with
  | [] => ret []
  | c :: rest =>
      i <- VaultService.upsert_refresh_token encryption (call_ambient c) user_id
             (call_token c) (call_session_state_id c) (call_attributes c) ;;
      ids <- upsert_all encryption user_id rest ;;
      ret (i :: ids)
  end.

(** The REFRESH rows of a user. *)
Definition refresh_rows (user_id : UUID) (rows : list AuthVault.t) : list AuthVault.t :=
  filter (λ r, AuthVault.token_type r = REFRESH ∧ AuthVault.user_id r = user_id) rows.

(** ** The state-token service ([app/services/state_token.py]) *)

(** Failure-aware sequencing of pure results. *)
Definition and_then {A B} (o : Outcome A) (k : A → Outcome B) : Outcome B :=
  match o with
  | Returns a => k a
  | Raises e => Raises e
  end.

(** [payload[key]] *)
Definition getitem (payload : dict) (key : string) : Outcome pyval :=
  match payload !! key with
  | Some v => Returns v
  | None => Raises (KeyError key)
  end.

(** One dot-separated segment of a compact token: the base64url encoding of
    a JSON object, or bytes that do not decode to one. *)
Inductive segment :=
| JsonObject (claims : dict)
| Malformed (bytes : string).

(** A token in compact serialization, [header.payload.signature]. *)
Record CompactToken := mkCompactToken {
  jws_header : segment;
  jws_payload : segment;
  jws_signature : string
}.

(** What the signature is computed over: [header.payload]. *)
Definition signing_input (token : CompactToken) : segment * segment :=
  (jws_header token, jws_payload token).

(** The part of PyJWT that the service uses: [jwt.encode] and [jwt.decode]
    with HS256. The keyed digest itself, HMAC-SHA256 of the signing input
    under the key, is a parameter. A datetime claim is encoded as its whole
    seconds. *)
Module jwt.
Section HS256.
Variable hmac_sha256 : string → segment * segment → string.

Definition encode (payload : dict) (key : string) (algorithm : string) : CompactToken :=
  let header := JsonObject {[ "alg" := VStr algorithm; "typ" := VStr "JWT" ]} in
  {| jws_header := header;
     jws_payload := JsonObject payload;
     jws_signature := hmac_sha256 key (header, JsonObject payload) |}.

(** A registered time claim that must not lie after [now]. *)
Definition not_in_the_future (payload : dict) (claim : string) (now : Z)
  : Outcome unit :=
  match payload !! claim with
  | None => Returns tt
  | Some (VInt t) =>
      if now <? t
      then Raises (InvalidTokenError ("The token is not yet valid (" +:+ claim +:+ ")"))
      else Returns tt
  | Some (VStr _) =>
      Raises (InvalidTokenError ("Claim (" +:+ claim +:+ ") must be an integer."))
  end.

(** The expiry, checked only under [verify_exp]. *)
Definition not_expired (payload : dict) (verify_exp : bool) (now : Z) : Outcome unit :=
  if verify_exp then
    match payload !! "exp" with
    | None => Returns tt
    | Some (VInt t) =>
        if t <=? now then Raises (InvalidTokenError "Signature has expired")
        else Returns tt
    | Some (VStr _) =>
        Raises (InvalidTokenError "Expiration Time claim (exp) must be an integer.")
    end
  else Returns tt.

(** [jwt.decode(token, key, algorithms=..., options={"verify_exp": ...})] at
    time [now]; every failure is a [jwt.InvalidTokenError]. *)
Definition decode (token : CompactToken) (key : string) (algorithms : list string)
    (verify_exp : bool) (now : Z) : Outcome dict :=
  match jws_header token with
  | Malformed _ => Raises (InvalidTokenError "Invalid header string")
  | JsonObject header =>
      match header !! "alg" with
      | Some (VStr alg) =>
          if negb (bool_decide (alg ∈ algorithms)) then
            Raises (InvalidTokenError "The specified alg value is not allowed")
          else if negb (String.eqb alg "HS256") then
            Raises (InvalidTokenError "Algorithm not supported")
          else if negb (String.eqb (jws_signature token)
                          (hmac_sha256 key (signing_input token))) then
            Raises (InvalidTokenError "Signature verification failed")
          else
            match jws_payload token with
            | Malformed _ => Raises (InvalidTokenError "Invalid payload string")
            | JsonObject payload =>
                and_then (not_in_the_future payload "iat" now) (λ _,
                and_then (not_in_the_future payload "nbf" now) (λ _,
                and_then (not_expired payload verify_exp now) (λ _,
                Returns payload)))
            end
      | _ => Raises (InvalidTokenError "Algorithm not supported")
      end
  end.

End HS256.
End jwt.

Module AckStateTokenPayload.
Record t := mk {
  user_id : string;
  session_state_id : string
}.

(** Modelled from the spec: the payload model of [app.models.request] is not
    among the sources. The spec gives it the fields [user_id] and
    [session_state_id], and the consent callback reads both as strings; its
    construction checks that both values are strings. *)
Definition validate (user_id session_state_id : pyval) : Outcome t :=
  match user_id, session_state_id with
  | VStr u, VStr s => Returns (mk u s)
  | _, _ => Raises PydanticValidationError
  end.
End AckStateTokenPayload.

(** ** Moments and durations ([datetime])

    A moment is the number of seconds from the epoch to it, in UTC, and a
    duration a number of seconds: [jwt.encode] writes a [datetime] claim as
    [timegm(utctimetuple())], which drops the microseconds. *)

(** [datetime.min], the first second of year 1, and the last second of
    [datetime.max], in year 9999. *)
Definition datetime_min : Z := -62135596800.
Definition datetime_max : Z := 253402300799.

(** [timedelta(seconds=n)] for an [int]: the seconds are normalised to days
    and the seconds of a day, and the days are kept within 999999999 of
    zero by an [OverflowError]. *)
Definition timedelta (seconds : Z) : Outcome Z :=
  if Z.abs (seconds / 86400) <=? 999999999 then Returns seconds
  else Raises (OtherError "OverflowError").

(** [moment + delta]: an [OverflowError] ("date value out of range") when
    the sum is outside the years 1 to 9999. *)
Definition datetime_add (moment delta : Z) : Outcome Z :=
  let sum := moment + delta in
  if (datetime_min <=? sum) && (sum <=? datetime_max) then Returns sum
  else Raises (OtherError "OverflowError").

Module AcknowledgementKeycloakStateService.
Section WithSecret.
Variable hmac_sha256 : string → segment * segment → string.
Variable secret_key : string.

(** [make_ack_state(user_id, session_state_id, expires_in)] called when the
    clock reads [now]. *)
Definition make_ack_state (now : Z) (user_id session_state_id : string)
    (expires_in : Z) : Outcome CompactToken :=
  and_then (timedelta expires_in) (λ delta,
  and_then (datetime_add now delta) (λ exp,
  let payload : dict :=
    {[ "user_id" := VStr user_id;
       "session_state_id" := VStr session_state_id;
       "exp" := VInt exp;
       "iat" := VInt now ]} in
  Returns (jwt.encode hmac_sha256 payload secret_key "HS256"))).

(** [parse_ack_state(token)] called when the clock reads [now]. *)
Definition parse_ack_state (now : Z) (token : CompactToken)
  : Outcome AckStateTokenPayload.t :=
  let attempt :=
    and_then (jwt.decode hmac_sha256 token secret_key ["HS256"] false now) (λ payload,
    and_then (getitem payload "user_id") (λ user_id,
    and_then (getitem payload "session_state_id") (λ session_state_id,
    AckStateTokenPayload.validate user_id session_state_id))) in
  match attempt with
  | Raises (InvalidTokenError msg) =>
      Raises (raised_as InvalidStateTokenError ("Invalid state token: " +:+ msg))
  | Raises (KeyError key) =>
      Raises (raised_as InvalidStateTokenError
                ("Missing required field in state token: '" +:+ key +:+ "'"))
  | outcome => outcome
  end.

End WithSecret.
End AcknowledgementKeycloakStateService.

(** The default of [expires_in]: ten minutes. *)
Definition default_expires_in : Z := 600.

(** The expiry of a token made at [issued_at] with [expires_in] is a
    [datetime]: the duration is a [timedelta] and the sum is within the
    years 1 to 9999. *)
Definition expiry_is_datetime (issued_at expires_in : Z) : Prop :=
  Z.abs (expires_in / 86400) ≤ 999999999
  ∧ datetime_min ≤ issued_at + expires_in ≤ datetime_max.

(** A result that is an [InvalidStateTokenError]. *)
Definition fails_invalid_state_token {A} (o : Outcome A) : Prop :=
  ∃ msg, o = Raises (AuthManagerExc
                       (mkAuthErr InvalidStateTokenError msg
                          (key_name invalid_ack_state) ∅)).

(** ** Sample data

    A stand-in for the encryption service and a few rows, to run the
    operations on. *)

Module Sample.

(** [strip_prefix p s] is [Some rest] when [s = p ++ rest]. *)
Fixpoint strip_prefix (p s : string) : option string :=
  match p, s with
  | EmptyString, _ => Some s
  | String a p', String b s' =>
      if Ascii.eqb a b then strip_prefix p' s' else None
  | String _ _, EmptyString => None
  end.

(** A reversible stand-in cipher: the ciphertext is the iv, a colon and the
    plaintext; decrypting under another iv fails. A token that is not a
    string cannot be encoded. *)
Definition encryption : EncryptionService :=
  {| encrypt_token := λ token iv,
       match token with
       | Some t => Returns (iv +:+ ":" +:+ t)
       | None => Raises (OtherError "AttributeError")
       end;
     decrypt_token := λ encrypted iv,
       match strip_prefix (iv +:+ ":") encrypted with
       | Some t => Returns t
       | None => Raises (OtherError "InvalidTag")
       end;
     hash_token := λ token,
       match token with
       | Some t => Returns ("sha256:" +:+ t)
       | None => Raises (OtherError "AttributeError")
       end |}.

Definition row (id user_id : UUID) (token_type : TokenType)
    (session_state_id token : string) (created_at : Z) : AuthVault.t :=
  {| AuthVault.id := id;
     AuthVault.user_id := user_id;
     AuthVault.token_type := token_type;
     AuthVault.encrypted_token := Some ("iv0:" +:+ token);
     AuthVault.iv := Some "iv0";
     AuthVault.token_hash := Some ("sha256:" +:+ token);
     AuthVault.attributes := None;
     AuthVault.session_state_id := session_state_id;
     AuthVault.created_at := created_at;
     AuthVault.updated_at := None |}.

(** A row whose token material is missing. *)
Definition bare_row (id user_id : UUID) (token_type : TokenType)
    (session_state_id : string) (created_at : Z) : AuthVault.t :=
  {| AuthVault.id := id;
     AuthVault.user_id := user_id;
     AuthVault.token_type := token_type;
     AuthVault.encrypted_token := None;
     AuthVault.iv := None;
     AuthVault.token_hash := None;
     AuthVault.attributes := None;
     AuthVault.session_state_id := session_state_id;
     AuthVault.created_at := created_at;
     AuthVault.updated_at := None |}.

Definition alice : UUID := "a11ce000-0000-4000-8000-000000000001".
Definition bob : UUID := "b0b00000-0000-4000-8000-000000000002".
Definition id1 : UUID := "00000000-0000-4000-8000-000000000011".
Definition id2 : UUID := "00000000-0000-4000-8000-000000000012".
Definition id3 : UUID := "00000000-0000-4000-8000-000000000013".

(** A database that answers every statement, holding [rows]. *)
Definition healthy (rows : list AuthVault.t) : World :=
  {| vault := rows; db_faults := []; upstream := [] |}.

Definition token_response (refresh_token : option string) (session_state : string)
  : KeycloakTokenResponse.t :=
  {| KeycloakTokenResponse.access_token := "access";
     KeycloakTokenResponse.expires_in := 300;
     KeycloakTokenResponse.refresh_expires_in := Some 1800;
     KeycloakTokenResponse.refresh_token := refresh_token;
     KeycloakTokenResponse.token_type := "Bearer";
     KeycloakTokenResponse.id_token := None;
     KeycloakTokenResponse.not_before_policy := 0;
     KeycloakTokenResponse.scope := Some "openid";
     KeycloakTokenResponse.session_state := session_state |}.

Definition introspection (active : bool) (sub : option UUID) (sid : option string)
  : TokenIntrospection.t :=
  {| TokenIntrospection.active := active;
     TokenIntrospection.exp := None;
     TokenIntrospection.iat := None;
     TokenIntrospection.sub := sub;
     TokenIntrospection.sid := sid;
     TokenIntrospection.scope := None;
     TokenIntrospection.client_id := None;
     TokenIntrospection.username := None;
     TokenIntrospection.token_type := None |}.

(** A provider that answers every introspection with [info], every refresh
    grant with [response], grants the admin token and answers the session
    delete with [status]. *)
Definition provider (info : TokenIntrospection.t)
    (response : KeycloakTokenResponse.t) (status : Z) : Provider :=
  {| a_introspect := λ _, SdkResult info;
     a_refresh_token := λ _, SdkResult response;
     a_token_client_credentials := SdkResult "admin-token";
     delete_session := λ _, (status, "") |}.

(** A stand-in keyed digest: the key followed by the string claims of the
    signed segments. *)
Definition render (s : segment) : string :=
  match s with
  | JsonObject claims =>
      foldr (λ kv acc,
               kv.1 +:+ "=" +:+ match kv.2 with VStr v => v | VInt _ => "#" end
                 +:+ ";" +:+ acc)
        "" (map_to_list claims)
  | Malformed bytes => bytes
  end.

Definition hmac (key : string) (input : segment * segment) : string :=
  key +:+ "|" +:+ render input.1 +:+ "|" +:+ render input.2.

End Sample.

(** ** Observations on a world *)

(** The failure the database will answer the [k]-th next statement with, if
    any, given the failures that are pending. *)
Definition fault_at (k : nat) (faults : list (option exn)) : option exn :=
  match faults !! k with
  | Some (Some e) => Some e
  | _ => None
  end.

(** The rows other than [id] that are OFFLINE entries of a session: what the
    shared-session census of the revocation counts. *)
Definition other_offline_entries (id : UUID) (session_state_id : string)
    (rows : list AuthVault.t) : list AuthVault.t :=
  filter (λ r, AuthVault.token_type r = OFFLINE
               ∧ AuthVault.id r ≠ id
               ∧ AuthVault.session_state_id r = session_state_id) rows.

(** A computation that leaves the rows of the vault as they are, whatever
    its outcome. *)
Definition preserves_vault {A} (c : M A) : Prop :=
  ∀ w out w', c w = (out, w') → vault w' = vault w.

(** The provider grants the admin token and answers the session delete with
    200 or 204. *)
Definition accepts_revocation (keycloak : Provider) (session_id : string) : Prop :=
  (∃ admin_token, a_token_client_credentials keycloak = SdkResult admin_token)
  ∧ (delete_session keycloak session_id).1 ∈ [200; 204].

(** ** Further operations *)

(** [KeycloakService.request_offline_token]: the refresh grant, asked with
    an offline token. *)
Definition request_offline_token (keycloak : Provider) (offline_token : string)
  : M KeycloakTokenResponse.t :=
  _ <- call_upstream (RefreshGrant offline_token) ;;
  from_sdk "Offline token request failed" (a_refresh_token keycloak offline_token).

Module OfflineTokenResult.
Record t := mk {
  persistent_token_id : UUID;
  session_state_id : string
}.
End OfflineTokenResult.

Module AccessTokenResult.
Record t := mk {
  access_token : string;
  expires_in : Z
}.
End AccessTokenResult.

Module RefreshTokenPayload.
(** Modelled from the spec: the request body of [POST /refresh-token]
    ([app.models.request]) is not among the sources; the operation reads its
    [refresh_token], the token to store. *)
Record t := mk { refresh_token : string }.
End RefreshTokenPayload.

(** [POST /offline-token-id] *)
Definition make_offline_token (amb : Ambient) (validated_token : ValidatedToken.t)
    (keycloak : Provider) (vault : EncryptionService) : M (Ok OfflineTokenResult.t) :=
  let user_id := ValidatedToken.user_id validated_token in
  let session_state_id := ValidatedToken.session_state_id validated_token in
  found <- auth_error_guard None "No offline token was found to generate a new one"
             (VaultService.retrieve_or_raise_by_session_state_id vault
                session_state_id (Some OFFLINE)) ;;
  let (entry, decrypted_token) := found : VaultEntry.t * string in
  new_token_response <-
    auth_error_guard None "Keycloak generating new offline token failed"
      (request_offline_token keycloak decrypted_token) ;;
  invariant_guard new_token_response
    (λ e, bool_decide (KeycloakTokenResponse.refresh_token e = None))
    (raised_as KeycloakError "Could not generate new token")
    (λ _,
       new_entry <-
         VaultService.store vault amb user_id
           (KeycloakTokenResponse.refresh_token new_token_response) OFFLINE
           (KeycloakTokenResponse.session_state new_token_response)
           (Some {[ "from" := VStr (VaultEntry.id entry) ]}) ;;
       ret (mkOk {| OfflineTokenResult.persistent_token_id := VaultEntry.id new_entry;
                    OfflineTokenResult.session_state_id :=
                      VaultEntry.session_state_id new_entry |})).

(** [POST /refresh-token] *)
Definition store_refresh_token (amb : Ambient) (validated_token : ValidatedToken.t)
    (vault : EncryptionService) (payload : RefreshTokenPayload.t)
  : M (Ok RefreshTokenIdResult.t) :=
  let user_id := ValidatedToken.user_id validated_token in
  let session_id := ValidatedToken.session_state_id validated_token in
  new_token_id <-
    auth_error_guard (Some DatabaseError) "Inserting new refresh token failed"
      (VaultService.upsert_refresh_token vault amb user_id
         (Some (RefreshTokenPayload.refresh_token payload)) session_id None) ;;
  ret (mkOk (RefreshTokenIdResult.mk new_token_id)).

(** [POST /access-token] *)
Definition get_access_token (amb : Ambient) (keycloak : Provider)
    (token_vault : EncryptionService) (id : UUID) : M (Ok AccessTokenResult.t) :=
  found <- auth_error_guard None "No data found for this persistent token id"
             (VaultService.retrieve_and_decrypt token_vault id) ;;
  let (entry, decrypted_token) := found : VaultEntry.t * string in
  token_response <-
    auth_error_guard None "Could not generate new access token"
      (KeycloakService.refresh_access_token keycloak decrypted_token) ;;
  _ <- (if truthy (KeycloakTokenResponse.refresh_token token_response) then
          _ <- VaultService.upsert_refresh_token token_vault amb
                 (VaultEntry.user_id entry)
                 (KeycloakTokenResponse.refresh_token token_response)
                 (KeycloakTokenResponse.session_state token_response)
                 (VaultEntry.attributes entry) ;;
          ret tt
        else ret tt) ;;
  ret (mkOk {| AccessTokenResult.access_token :=
                 KeycloakTokenResponse.access_token token_response;
               AccessTokenResult.expires_in :=
                 KeycloakTokenResponse.expires_in token_response |}).

(** ** The handler of domain errors ([app/core/exceptions_handler.py]) *)

(** [app.models.api.Err] *)
Module Err.
Record t := mk {
  error : string;
  code : string;
  reason : option string;
  details : option dict
}.
End Err.

(** The response the handler builds: the model it serializes and the
    status. *)
Record ErrorResponse := mkErrorResponse {
  content : Err.t;
  status_code : Z
}.

(** [auth_manager_error_handler]; the logging is left out. [Err] takes an
    optional string as [reason] and refuses another value. *)
Definition auth_manager_error_handler (exc : AuthErr) : Outcome ErrorResponse :=
  let status_code := status_of_code (code exc) in
  match details exc !! "reason" with
  | Some (VInt _) => Raises PydanticValidationError
  | reason =>
      Returns
        {| content :=
             {| Err.error := message exc;
                Err.code := code exc;
                Err.reason := match reason with Some (VStr s) => Some s | _ => None end;
                Err.details := Some (details exc) |};
           status_code := status_code |}
  end.

(** ** Sequences of stores *)

(** One call of [store]: what it draws from its surroundings and its
    arguments. *)
Record StoreCall := mkStoreCall {
  store_ambient : Ambient;
  store_user_id : UUID;
  store_token : option string;
  store_token_type : TokenType;
  store_session_state_id : string;
  store_attributes : option dict
}.

(** The row a [store] call writes under a given encryption and hash of its
    token. *)
Definition stored_row (c : StoreCall) (encrypted_token token_hash : string)
  : AuthVault.t :=
  {| AuthVault.id := fresh_uuid (store_ambient c);
     AuthVault.user_id := store_user_id c;
     AuthVault.token_type := store_token_type c;
     AuthVault.encrypted_token := Some encrypted_token;
     AuthVault.iv := Some (fresh_iv (store_ambient c));
     AuthVault.token_hash := Some token_hash;
     AuthVault.attributes := store_attributes c;
     AuthVault.session_state_id := store_session_state_id c;
     AuthVault.created_at := db_now (store_ambient c);
     AuthVault.updated_at := None |}.

(** The calls made one after the other; the run stops at the first call
    that raises. *)
Fixpoint store_all (encryption : EncryptionService) (calls : list StoreCall)
  : M (list VaultEntry.t) :=
  match calls with
  | [] => ret []
  | c :: rest =>
      e <- VaultService.store encryption (store_ambient c) (store_user_id c)
             (store_token c) (store_token_type c) (store_session_state_id c)
             (store_attributes c) ;;
      es <- store_all encryption rest ;;
      ret (e :: es)
  end.

(** * Properties *)

(** ** Running computations *)

Lemma bind_returns {A B} (c : M A) (k : A → M B) w b w' :
  bind c k w = (Returns b, w') →
  ∃ a w1, c w = (Returns a, w1) ∧ k a w1 = (Returns b, w').
Proof.
  unfold bind. destruct (c w) as [[a|e] w1]; [eauto | discriminate].
Qed.

Lemma bind_of_returns {A B} (c : M A) (k : A → M B) w a w1 :
  c w = (Returns a, w1) → bind c k w = k a w1.
Proof. unfold bind. by intros ->. Qed.


Lemma lift_returns {A} (o : Outcome A) w a w' :
  lift o w = (Returns a, w') → o = Returns a ∧ w' = w.
Proof. unfold lift. intros [= -> ->]. done. Qed.

Lemma ret_returns {A} (x : A) w a w' :
  ret x w = (Returns a, w') → a = x ∧ w' = w.
Proof. unfold ret. intros [= -> ->]. done. Qed.

(** A statement that does not fail was not answered with a pending failure,
    ran on the rows, and used up one entry of the pending failures. *)
Lemma execute_returns {A} (stmt : list AuthVault.t → Outcome A * list AuthVault.t)
    w a w' :
  execute stmt w = (Returns a, w') →
  ∃ rows, stmt (vault w) = (Returns a, rows)
          ∧ w' = mkWorld rows (tail (db_faults w)) (upstream w).
Proof.
  unfold execute. intros H.
  destruct (db_faults w) as [|[e|] rest]; try discriminate;
    destruct (stmt (vault w)) as [o rows]; injection H as -> <-; eauto.
Qed.

(** With no failure pending, a statement runs on the rows. *)
Lemma execute_healthy {A} (stmt : list AuthVault.t → Outcome A * list AuthVault.t)
    rows up :
  execute stmt (mkWorld rows [] up)
  = ((stmt rows).1, mkWorld (stmt rows).2 [] up).
Proof. unfold execute. simpl. by destruct (stmt rows). Qed.

(** ** Query results *)

Lemma scalar_one_or_none_returns {A} (result : list A) o :
  scalar_one_or_none result = Returns o →
  (result = [] ∧ o = None) ∨ (∃ row, result = [row] ∧ o = Some row).
Proof.
  destruct result as [|row [|??]]; simpl; intros [= <-]; eauto.
Qed.

Lemma order_by_created_at_desc_nil rows :
  order_by_created_at_desc rows = [] → rows = [].
Proof.
  intros H. apply Permutation_nil_r. rewrite <- H.
  unfold order_by_created_at_desc. by rewrite merge_sort_Permutation.
Qed.

Lemma order_by_created_at_desc_singleton rows row :
  order_by_created_at_desc rows = [row] → rows = [row].
Proof.
  intros H. apply Permutation_singleton_r. rewrite <- H.
  unfold order_by_created_at_desc. by rewrite merge_sort_Permutation.
Qed.

Lemma order_by_created_at_desc_length rows :
  length (order_by_created_at_desc rows) = length rows.
Proof.
  unfold order_by_created_at_desc. by rewrite merge_sort_Permutation.
Qed.

(** A map that leaves the filtered property of every row alone commutes
    with the filter. *)
Lemma filter_fmap_stable {A} (P : A → Prop) `{!∀ x, Decision (P x)}
    (f : A → A) (l : list A) :
  (∀ x, P (f x) ↔ P x) → filter P (f <$> l) = f <$> filter P l.
Proof.
  intros Hf. induction l as [|x l IH]; [done|].
  rewrite fmap_cons, !filter_cons.
  destruct (decide (P (f x))) as [Hy|Hn], (decide (P x)) as [Hy'|Hn'];
    rewrite ?fmap_cons, ?IH; try done.
  all: specialize (Hf x); tauto.
Qed.

(** ** The upsert invariant *)

Lemma refresh_rows_nested user_id rows :
  where_token_type (Some REFRESH) (filter (λ r, AuthVault.user_id r = user_id) rows)
  = refresh_rows user_id rows.
Proof. unfold where_token_type, refresh_rows. apply list_filter_filter. Qed.

Lemma refresh_rows_update amb i ct iv h s attrs user_id rows :
  refresh_rows user_id (VaultRepository.update_values amb i ct iv h s attrs <$> rows)
  = VaultRepository.update_values amb i ct iv h s attrs <$> refresh_rows user_id rows.
Proof.
  unfold refresh_rows. apply filter_fmap_stable.
  intros r. unfold VaultRepository.update_values. by destruct (decide _).
Qed.

(** A lookup by user that returns left the rows alone and found no row or
    exactly one. *)
Lemma retrieve_by_user_id_returns user_id token_type w o w' :
  VaultRepository.retrieve_by_user_id user_id token_type w = (Returns o, w') →
  w' = mkWorld (vault w) (tail (db_faults w)) (upstream w)
  ∧ ((where_token_type token_type
        (filter (λ r, AuthVault.user_id r = user_id) (vault w)) = []
      ∧ o = None)
     ∨ (∃ row, where_token_type token_type
                 (filter (λ r, AuthVault.user_id r = user_id) (vault w)) = [row]
               ∧ o = Some (VaultEntry.model_validate row))).
Proof.
  unfold VaultRepository.retrieve_by_user_id. intros H.
  apply bind_returns in H as (result & w1 & Hsel & H).
  apply bind_returns in H as (entry & w2 & Hone & H).
  apply execute_returns in Hsel as (rows & [= <- <-] & ->).
  apply lift_returns in Hone as [Hone ->].
  apply ret_returns in H as [-> ->]. split; [done|].
  apply scalar_one_or_none_returns in Hone as [[Hnil ->]|(row & Hrow & ->)].
  - left. by apply order_by_created_at_desc_nil in Hnil.
  - right. exists row. by apply order_by_created_at_desc_singleton in Hrow.
Qed.

(** A [create] that returns appended its row. *)
Lemma create_returns amb user_id token_type ct iv h s attrs w e w' :
  VaultRepository.create amb user_id token_type ct iv h s attrs w = (Returns e, w') →
  ∃ row, vault w' = (vault w ++ [row])%list
         ∧ e = VaultEntry.model_validate row
         ∧ row = AuthVault.mk (fresh_uuid amb) user_id token_type (Some ct) (Some iv)
                   (Some h) attrs s (db_now amb) None.
Proof.
  unfold VaultRepository.create. intros H.
  apply bind_returns in H as ([] & w1 & Hins & H).
  apply bind_returns in H as ([] & w2 & Href & H).
  apply execute_returns in Hins as (rows & Hins & ->). simpl in Hins.
  case_bool_decide; [discriminate|]. injection Hins as <-.
  apply execute_returns in Href as (rows & [= <-] & ->).
  apply ret_returns in H as [-> ->]. simpl. eauto.
Qed.

(** What the repository's upsert leaves behind when it returns: one REFRESH
    row for the user, carrying the values of the call. *)
Lemma repository_upsert_returns amb user_id ct iv h s attrs w i w' :
  VaultRepository.upsert_refresh_token amb user_id ct iv h s attrs w = (Returns i, w') →
  ∃ r, refresh_rows user_id (vault w') = [r]
       ∧ AuthVault.id r = i
       ∧ AuthVault.encrypted_token r = Some ct
       ∧ AuthVault.iv r = Some iv
       ∧ AuthVault.token_hash r = Some h
       ∧ AuthVault.session_state_id r = s
       ∧ AuthVault.attributes r = attrs.
Proof.
  unfold VaultRepository.upsert_refresh_token. intros H.
  apply bind_returns in H as (existing & w1 & Hget & H).
  apply retrieve_by_user_id_returns in Hget as [-> Hget].
  rewrite refresh_rows_nested in Hget.
  destruct Hget as [[Hnil ->]|(row & Hrow & ->)].
  - apply bind_returns in H as (entry & w2 & Hnew & H).
    apply create_returns in Hnew as (r & Hrows & -> & ->).
    apply ret_returns in H as [-> ->]. simpl in Hrows.
    eexists. split; [|done].
    rewrite Hrows. unfold refresh_rows in *.
    rewrite filter_app, Hnil. simpl. by rewrite filter_cons_True.
  - apply bind_returns in H as ([] & w2 & Hupd & H).
    apply execute_returns in Hupd as (rows & [= <-] & ->).
    apply ret_returns in H as [-> ->]. simpl.
    rewrite refresh_rows_update, Hrow. simpl.
    eexists. split; [done|].
    unfold VaultRepository.update_values.
    rewrite decide_True by done. done.
Qed.

Lemma upsert_all_last encryption user_id calls c w ids w' :
  upsert_all encryption user_id (calls ++ [c]) w = (Returns ids, w') →
  ∃ w1 i,
    VaultService.upsert_refresh_token encryption (call_ambient c) user_id
      (call_token c) (call_session_state_id c) (call_attributes c) w1
    = (Returns i, w')
    ∧ last ids = Some i.
Proof.
  revert w ids. induction calls as [|c0 calls IH]; intros w ids H; simpl in H.
  - apply bind_returns in H as (i & w1 & Hcall & H).
    apply bind_returns in H as (rest & w2 & Hnil & H).
    apply ret_returns in Hnil as [-> ->].
    apply ret_returns in H as [-> ->]. eauto.
  - apply bind_returns in H as (i0 & w1 & Hcall & H).
    apply bind_returns in H as (rest & w2 & Hrest & H).
    apply ret_returns in H as [-> ->].
    apply IH in Hrest as (w3 & i & Hlast & Hi).
    exists w3, i. split; [done|].
    destruct rest; [discriminate|done].
Qed.

(** C1. For a user and a non-empty sequence of [upsert_refresh_token] calls
    for that user that all return, run one after the other: afterwards the
    vault holds exactly one REFRESH row for the user, the last call returned
    its id, and its encrypted token, iv, token hash, session state id and
    attributes are those derived from the arguments of the last call (the iv
    that call generated, the encryption and the hash of its token). *)
Theorem upsert_refresh_invariant encryption user_id calls c w ids w' :
  upsert_all encryption user_id (calls ++ [c]) w = (Returns ids, w') →
  ∃ r encrypted hash,
    refresh_rows user_id (vault w') = [r]
    ∧ last ids = Some (AuthVault.id r)
    ∧ encrypt_token encryption (call_token c) (fresh_iv (call_ambient c)) = Returns encrypted
    ∧ hash_token encryption (call_token c) = Returns hash
    ∧ AuthVault.encrypted_token r = Some encrypted
    ∧ AuthVault.iv r = Some (fresh_iv (call_ambient c))
    ∧ AuthVault.token_hash r = Some hash
    ∧ AuthVault.session_state_id r = call_session_state_id c
    ∧ AuthVault.attributes r = call_attributes c.
Proof.
  intros H. apply upsert_all_last in H as (w1 & i & H & Hi).
  unfold VaultService.upsert_refresh_token in H.
  apply bind_returns in H as (encrypted & w2 & Henc & H).
  apply bind_returns in H as (hash & w3 & Hhash & H).
  apply lift_returns in Henc as [Henc ->].
  apply lift_returns in Hhash as [Hhash ->].
  apply repository_upsert_returns in H as (r & Hr & <- & ? & ? & ? & ? & ?).
  exists r, encrypted, hash. done.
Qed.

(** Two calls for one user, next to the REFRESH row of another user. *)
Lemma upsert_refresh_invariant_witness :
  let first := mkUpsertCall (mkAmbient Sample.id1 10 "iv1") (Some "rt-1") "s-1" None in
  let second := mkUpsertCall (mkAmbient Sample.id2 20 "iv2") (Some "rt-2") "s-2"
                  (Some {[ "session_id" := VStr "s-1" ]}) in
  let w := Sample.healthy [Sample.row Sample.id3 Sample.bob REFRESH "s-0" "rt-0" 1] in
  ∃ ids w',
    upsert_all Sample.encryption Sample.alice ([first] ++ [second]) w = (Returns ids, w')
    ∧ ∃ r encrypted hash,
        refresh_rows Sample.alice (vault w') = [r]
        ∧ last ids = Some (AuthVault.id r)
        ∧ encrypt_token Sample.encryption (call_token second)
            (fresh_iv (call_ambient second)) = Returns encrypted
        ∧ hash_token Sample.encryption (call_token second) = Returns hash
        ∧ AuthVault.encrypted_token r = Some encrypted
        ∧ AuthVault.iv r = Some (fresh_iv (call_ambient second))
        ∧ AuthVault.token_hash r = Some hash
        ∧ AuthVault.session_state_id r = call_session_state_id second
        ∧ AuthVault.attributes r = call_attributes second.
Proof.
  intros first second w. do 2 eexists. split.
  - vm_compute. reflexivity.
  - apply (upsert_refresh_invariant Sample.encryption Sample.alice [first] second w).
    vm_compute. reflexivity.
Defined.

(** ** Lookups *)

Lemma scalar_one_or_none_several {A} (result : list A) :
  (2 ≤ length result)%nat → scalar_one_or_none result = Raises MultipleResultsFound.
Proof. destruct result as [|? [|? ?]]; simpl; [lia | lia | done]. Qed.

(** As soon as two rows match, the lookup by user raises, whatever their
    creation times. *)
Lemma retrieve_by_user_id_several_raises user_id token_type rows up :
  (2 ≤ length (where_token_type token_type
                 (filter (λ r, AuthVault.user_id r = user_id) rows)))%nat →
  VaultRepository.retrieve_by_user_id user_id token_type (mkWorld rows [] up)
  = (Raises MultipleResultsFound, mkWorld rows [] up).
Proof.
  intros Hlen. unfold VaultRepository.retrieve_by_user_id, bind.
  rewrite execute_healthy. simpl. unfold lift.
  rewrite scalar_one_or_none_several; [done|].
  by rewrite order_by_created_at_desc_length.
Qed.

(** C8. [retrieve_by_user_id] on a vault in which the user has two OFFLINE
    rows, created at times 1 and 2: the lookup raises [MultipleResultsFound]
    instead of returning the row created at time 2. *)
Theorem retrieve_by_user_id_two_rows :
  let older := Sample.row Sample.id1 Sample.alice OFFLINE "s-1" "ot-1" 1 in
  let newer := Sample.row Sample.id2 Sample.alice OFFLINE "s-1" "ot-2" 2 in
  VaultRepository.retrieve_by_user_id Sample.alice (Some OFFLINE)
    (Sample.healthy [older; newer])
  = (Raises MultipleResultsFound, Sample.healthy [older; newer]).
Proof. vm_compute. reflexivity. Qed.

(** A single matching row is returned, no row gives [None]. *)
Lemma retrieve_by_user_id_at_most_one user_id token_type rows up :
  (length (where_token_type token_type
             (filter (λ r, AuthVault.user_id r = user_id) rows)) ≤ 1)%nat →
  VaultRepository.retrieve_by_user_id user_id token_type (mkWorld rows [] up)
  = (Returns (VaultEntry.model_validate
                <$> head (where_token_type token_type
                            (filter (λ r, AuthVault.user_id r = user_id) rows))),
     mkWorld rows [] up).
Proof.
  intros Hlen. unfold VaultRepository.retrieve_by_user_id, bind.
  rewrite execute_healthy. simpl. unfold lift.
  destruct (where_token_type _ _) as [|row [|??]] eqn:Hq; simpl in Hlen; [| |lia].
  - by vm_compute.
  - replace (order_by_created_at_desc [row]) with [row] by done. done.
Qed.

(** When no row matches, the service's lookup by session raises a
    [DatabaseError] whose code is [entity_not_found]. *)
Lemma retrieve_or_raise_no_match encryption session_state_id token_type rows up :
  where_token_type token_type
    (filter (λ r, AuthVault.session_state_id r = session_state_id) rows) = [] →
  VaultService.retrieve_or_raise_by_session_state_id encryption
    session_state_id token_type (mkWorld rows [] up)
  = (Raises (AuthManagerExc
               (mkAuthErr DatabaseError "No token found for the session/type requested"
                  "entity_not_found" ∅)),
     mkWorld rows [] up).
Proof.
  intros Hq.
  unfold VaultService.retrieve_or_raise_by_session_state_id,
    VaultRepository.retrieve_or_raise_by_session_state_id,
    raise_if_not_found_guard, try_except, bind.
  rewrite execute_healthy. simpl. by rewrite Hq.
Qed.

(** A single matching row that has its token material and decrypts is
    returned with its plaintext. *)
Lemma retrieve_or_raise_found encryption session_state_id token_type rows up
    row ct v t :
  where_token_type token_type
    (filter (λ r, AuthVault.session_state_id r = session_state_id) rows) = [row] →
  AuthVault.encrypted_token row = Some ct → ct ≠ "" →
  AuthVault.iv row = Some v → v ≠ "" →
  decrypt_token encryption ct v = Returns t →
  VaultService.retrieve_or_raise_by_session_state_id encryption
    session_state_id token_type (mkWorld rows [] up)
  = (Returns (VaultEntry.model_validate row, t), mkWorld rows [] up).
Proof.
  intros Hq Hct Hct' Hiv Hiv' Hdec.
  unfold VaultService.retrieve_or_raise_by_session_state_id,
    VaultRepository.retrieve_or_raise_by_session_state_id,
    raise_if_not_found_guard, try_except, bind.
  rewrite execute_healthy. simpl. rewrite Hq. simpl.
  unfold invariant_guard, no_encrypted_data. simpl.
  rewrite Hct, Hiv. simpl.
  destruct (String.eqb_spec ct ""); [done|]. destruct (String.eqb_spec v ""); [done|].
  simpl. unfold bind, lift. simpl. by rewrite Hdec.
Qed.

(** C5. [retrieve_or_raise_by_session_state_id] of the vault service on a
    vault with no row for the session: the failure is a [DatabaseError] with
    code [entity_not_found], which is not the [token_not_found] kind and is
    reported with status 500, where [token_not_found] is reported with 404. *)
Theorem retrieve_or_raise_no_match_kind :
  ∃ e,
    VaultService.retrieve_or_raise_by_session_state_id Sample.encryption
      "s-1" (Some OFFLINE)
      (Sample.healthy [Sample.row Sample.id1 Sample.alice OFFLINE "s-2" "ot-1" 1])
    = (Raises (AuthManagerExc e),
       Sample.healthy [Sample.row Sample.id1 Sample.alice OFFLINE "s-2" "ot-1" 1])
    ∧ err_class e = DatabaseError
    ∧ code e = "entity_not_found"
    ∧ code e ≠ key_name token_not_found
    ∧ status_of_code (code e) = 500
    ∧ status_of_code (key_name token_not_found) = 404.
Proof. eexists. split; [vm_compute; reflexivity|]. by vm_compute. Qed.

(** On absence [get_by_user_id] fails its assertion. *)
Lemma get_by_user_id_absent encryption user_id token_type rows up :
  where_token_type token_type
    (filter (λ r, AuthVault.user_id r = user_id) rows) = [] →
  VaultService.get_by_user_id encryption user_id token_type (mkWorld rows [] up)
  = (Raises AssertionError, mkWorld rows [] up).
Proof.
  intros Hq.
  unfold VaultService.get_by_user_id, VaultRepository.retrieve_by_user_id,
    raise_if_not_found_guard, try_except, bind.
  rewrite execute_healthy. simpl. rewrite Hq. by vm_compute.
Qed.

(** C7. The optional lookups on absence and on a row without token
    material: [get_by_user_id] for a user with no row raises
    [AssertionError] instead of returning [None]; for a user whose only row
    has no encrypted token and no iv it raises a [ValidationError];
    [retrieve_by_session_state_id] on such a row raises [AssertionError].
    Only [retrieve_by_session_state_id] with no matching row returns
    [None]. *)
Theorem optional_lookups_on_absence :
  let w := Sample.healthy [Sample.bare_row Sample.id1 Sample.bob OFFLINE "s-1" 1] in
  VaultService.get_by_user_id Sample.encryption Sample.alice None w
  = (Raises AssertionError, w)
  ∧ VaultService.get_by_user_id Sample.encryption Sample.bob None w
    = (Raises (raised_as ValidationError "Token has no encrypted data"), w)
  ∧ VaultService.retrieve_by_session_state_id Sample.encryption "s-1" None w
    = (Raises AssertionError, w)
  ∧ VaultService.retrieve_by_session_state_id Sample.encryption "s-2" None w
    = (Returns None, w)
  ∧ kind_of AssertionError = key_name internal_error
  ∧ kind_of (raised_as ValidationError "Token has no encrypted data")
    = key_name validation_error.
Proof. by vm_compute. Qed.

(** ** Guards *)

(** The guards only ever turn a failure into another failure: a guarded
    block that returns is a block that returned. *)
Lemma raise_if_not_found_guard_returns {A} exc (body : M A) w a w' :
  raise_if_not_found_guard exc body w = (Returns a, w') → body w = (Returns a, w').
Proof.
  unfold raise_if_not_found_guard, try_except.
  destruct (body w) as [[x|e] w1]; [done|]. by destruct e.
Qed.

Lemma auth_error_guard_returns {A} exc msg (body : M A) w a w' :
  auth_error_guard exc msg body w = (Returns a, w') → body w = (Returns a, w').
Proof.
  unfold auth_error_guard, try_except.
  destruct (body w) as [[x|e] w1]; [done|]. destruct e; try done. by destruct exc.
Qed.

Lemma auth_error_guard_of_returns {A} exc msg (body : M A) w a w' :
  body w = (Returns a, w') → auth_error_guard exc msg body w = (Returns a, w').
Proof. unfold auth_error_guard, try_except. by intros ->. Qed.

Lemma invariant_guard_returns {T A} (value : T) condition exc (body : T → M A)
    w a w' :
  invariant_guard value condition exc body w = (Returns a, w') →
  condition value = false ∧ body value w = (Returns a, w').
Proof. unfold invariant_guard. by destruct (condition value). Qed.

(** An entry the service's lookup by session returns has its token
    material. *)
Lemma retrieve_or_raise_returns encryption session_state_id token_type w entry t w' :
  VaultService.retrieve_or_raise_by_session_state_id encryption
    session_state_id token_type w = (Returns (entry, t), w') →
  no_encrypted_data entry = false ∧ vault w' = vault w ∧ upstream w' = upstream w.
Proof.
  unfold VaultService.retrieve_or_raise_by_session_state_id. intros H.
  apply bind_returns in H as (e & w1 & Hget & H).
  apply raise_if_not_found_guard_returns in Hget.
  unfold VaultRepository.retrieve_or_raise_by_session_state_id in Hget.
  apply bind_returns in Hget as (result & w2 & Hsel & Hget).
  apply execute_returns in Hsel as (rows & [= <- <-] & ->).
  apply bind_returns in Hget as (row & w3 & Hone & Hget).
  apply lift_returns in Hone as [_ ->]. apply ret_returns in Hget as [-> ->].
  apply invariant_guard_returns in H as [Hmat H].
  apply bind_returns in H as (ct & w4 & Hct & H).
  apply bind_returns in H as (iv & w5 & Hiv & H).
  apply bind_returns in H as (pt & w6 & Hpt & H).
  apply lift_returns in Hpt as [_ ->]. apply ret_returns in H as [[= -> ->] ->].
  unfold assert_is_not_none in Hct, Hiv.
  destruct (VaultEntry.encrypted_token _); [|done].
  destruct (VaultEntry.iv _); [|done].
  apply ret_returns in Hct as [_ ->]. apply ret_returns in Hiv as [_ ->].
  done.
Qed.

(** ** Minting a new refresh token id *)

(** Whenever the stored refresh token is found and the provider's refresh
    grant answers with a rotated refresh token, the operation raises and
    stores nothing. *)
Lemma make_new_refresh_token_id_rotated amb validated_token keycloak service
    w entry decrypted w1 response :
  VaultService.retrieve_or_raise_by_session_state_id service
    (ValidatedToken.session_state_id validated_token) (Some REFRESH) w
  = (Returns (entry, decrypted), w1) →
  a_refresh_token keycloak decrypted = SdkResult response →
  KeycloakTokenResponse.refresh_token response ≠ None →
  make_new_refresh_token_id amb validated_token keycloak service w
  = (Raises (raised_as KeycloakError "No refresh token was generated"),
     mkWorld (vault w) (db_faults w1) (upstream w ++ [RefreshGrant decrypted])%list).
Proof.
  intros Hfound Hreply Hrot.
  pose proof (retrieve_or_raise_returns _ _ _ _ _ _ _ Hfound) as (Hmat & <- & <-).
  unfold make_new_refresh_token_id, bind.
  rewrite (auth_error_guard_of_returns _ _ _ _ _ _ Hfound).
  unfold invariant_guard at 1. rewrite Hmat.
  unfold KeycloakService.refresh_access_token, bind, call_upstream.
  rewrite Hreply. simpl. unfold invariant_guard.
  by rewrite bool_decide_eq_true_2.
Qed.

(** C4. [make_new_refresh_token_id] for a user whose refresh token is in the
    vault, when the provider's refresh grant succeeds and returns the rotated
    refresh token ["rt-2"]: the operation raises [KeycloakError]
    ("No refresh token was generated"); nothing is stored, the row still
    holds the old token. *)
Theorem make_new_refresh_token_id_rotated_run :
  let w := Sample.healthy [Sample.row Sample.id1 Sample.alice REFRESH "s-1" "rt-1" 1] in
  let keycloak :=
    Sample.provider (Sample.introspection true (Some Sample.alice) (Some "s-1"))
      (Sample.token_response (Some "rt-2") "s-1") 204 in
  make_new_refresh_token_id (mkAmbient Sample.id2 5 "iv1")
    (ValidatedToken.mk Sample.alice "s-1" "access") keycloak Sample.encryption w
  = (Raises (raised_as KeycloakError "No refresh token was generated"),
     mkWorld (vault w) [] [RefreshGrant "rt-1"]).
Proof. vm_compute. reflexivity. Qed.

(** ** The error rewrap *)

(** C9 as stated fails: a [TokenNotFoundError] raised inside a rewrap block
    with no error type comes out with its own message, not with the message
    supplied to the block. *)
Lemma auth_error_guard_keeps_message :
  ∃ e w',
    auth_error_guard None "No data found for this persistent token id"
      (VaultService.retrieve_and_decrypt Sample.encryption Sample.id1)
      (Sample.healthy [])
    = (Raises (AuthManagerExc e), w')
    ∧ code e = key_name token_not_found
    ∧ message e = "Token not found"
    ∧ message e ≠ "No data found for this persistent token id".
Proof. do 2 eexists. split; [vm_compute; reflexivity|]. by vm_compute. Qed.

(** C9, amended. For a domain error E raised inside an error-rewrap block:
    with no error type, the block re-raises the generic domain error with
    E's code, E's details, and E's own message when that is not empty, the
    message supplied to the block only when E's message is empty; with an
    error type, it re-raises that type with the supplied message, the type's
    default code and no details. What the block did before raising stays
    done. *)
Theorem auth_error_guard_rewrap {A} (exc : option ErrClass) (error_message : string)
    (body : M A) (w w1 : World) (E : AuthErr) :
  body w = (Raises (AuthManagerExc E), w1) →
  auth_error_guard exc error_message body w
  = (Raises (AuthManagerExc
               match exc with
               | Some cls => mkAuthErr cls error_message (default_code cls) ∅
               | None =>
                   mkAuthErr AuthManagerError
                     (if String.eqb (message E) "" then error_message else message E)
                     (code E) (details E)
               end),
     w1).
Proof.
  intros Hbody. unfold auth_error_guard, try_except. rewrite Hbody.
  by destruct exc.
Qed.

(** A failed lookup inside a block with no error type and inside a block
    with one. *)
Lemma auth_error_guard_rewrap_witness :
  let body := VaultService.retrieve_and_decrypt Sample.encryption Sample.id1 in
  let w := Sample.healthy [] in
  let E := new_error TokenNotFoundError "Token not found" None None in
  body w = (Raises (AuthManagerExc E), w)
  ∧ auth_error_guard None "No data found for this persistent token id" body w
    = (Raises (AuthManagerExc
                 (mkAuthErr AuthManagerError "Token not found" "token_not_found" ∅)),
       w)
  ∧ auth_error_guard (Some DatabaseError) "Delete operation failed" body w
    = (Raises (AuthManagerExc
                 (mkAuthErr DatabaseError "Delete operation failed" "database_error" ∅)),
       w).
Proof.
  intros body w E.
  assert (Hbody : body w = (Raises (AuthManagerExc E), w)) by (vm_compute; reflexivity).
  split; [exact Hbody|]. split.
  - exact (auth_error_guard_rewrap None _ body w w E Hbody).
  - exact (auth_error_guard_rewrap (Some DatabaseError) _ body w w E Hbody).
Defined.

(** Failures that are not domain errors pass through the block untouched. *)
Lemma auth_error_guard_passes_other {A} exc msg (body : M A) w w1 e :
  body w = (Raises e, w1) →
  (∀ a, e ≠ AuthManagerExc a) →
  auth_error_guard exc msg body w = (Raises e, w1).
Proof.
  intros Hbody Hother. unfold auth_error_guard, try_except. rewrite Hbody.
  destruct e; try done. by destruct (Hother e).
Qed.

(** ** Validation *)

(** C3 as stated fails: an introspection result that is active but carries
    neither a subject nor a session claim is answered with [valid = true]. *)
Lemma validate_token_without_claims :
  validate_token "access"
    (Sample.provider (Sample.introspection true None None)
       (Sample.token_response None "s-1") 204)
    (Sample.healthy [])
  = (Returns (mkOk (ValidationResponse.mk true)),
     mkWorld [] [] [Introspect "access"]).
Proof. vm_compute. reflexivity. Qed.

(** What one introspection request gives. *)
Lemma introspect_token_run keycloak token w :
  KeycloakService.introspect_token keycloak token w
  = from_sdk "Token introspection failed" (a_introspect keycloak token)
      (mkWorld (vault w) (db_faults w) (upstream w ++ [Introspect token])%list).
Proof. done. Qed.

(** C3, amended. The validate operation returns [valid = true] exactly when
    introspection reports [active = true], whether or not the result carries
    a subject or a session claim, and fails with the [token_not_active] kind
    when it reports [active = false]. The subject and session claims are
    required by [get_validated_token], the dependency of the other
    operations: with bearer credentials it returns the validated token only
    if the result is active, has both claims and its subject is a version-4
    UUID, and fails with [token_not_active] for an inactive result, with
    [invalid_request] ("Token missing required claim: sub") for an active
    result without subject, with [invalid_request] ("Token missing required
    claim: session_state") for an active result with a subject and no
    session, and with pydantic's validation error, raised by the
    construction of the validated token, for an active result with both
    claims whose subject is a UUID of another version. *)
Theorem validation_conditions token keycloak w info :
  a_introspect keycloak token = SdkResult info →
  let w' := mkWorld (vault w) (db_faults w) (upstream w ++ [Introspect token])%list in
  validate_token token keycloak w
  = (if TokenIntrospection.active info
     then Returns (mkOk (ValidationResponse.mk true))
     else Raises (AuthManagerExc
                    (mkAuthErr TokenNotActiveError "Token is not active"
                       "token_not_active" ∅)),
     w')
  ∧ ∀ scheme_in credentials,
      scheme_is_not_bearer scheme_in credentials = false →
      HTTPAuthorizationCredentials.credentials credentials = token →
      (TokenIntrospection.active info = false →
       get_validated_token scheme_in keycloak (Some credentials) w
       = (Raises (AuthManagerExc
                    (mkAuthErr TokenNotActiveError "Token is not active"
                       "token_not_active" ∅)),
          w'))
      ∧ (TokenIntrospection.active info = true →
         TokenIntrospection.sub info = None →
         get_validated_token scheme_in keycloak (Some credentials) w
         = (Raises (AuthManagerExc
                      (mkAuthErr InvalidRequestError "Token missing required claim: sub"
                         "invalid_request" ∅)),
            w'))
      ∧ (TokenIntrospection.active info = true →
         is_Some (TokenIntrospection.sub info) →
         TokenIntrospection.sid info = None →
         get_validated_token scheme_in keycloak (Some credentials) w
         = (Raises (AuthManagerExc
                      (mkAuthErr InvalidRequestError
                         "Token missing required claim: session_state"
                         "invalid_request" ∅)),
            w'))
      ∧ (∀ user_id sid,
           TokenIntrospection.active info = true →
           TokenIntrospection.sub info = Some user_id →
           TokenIntrospection.sid info = Some sid →
           is_uuid4 user_id = true →
           get_validated_token scheme_in keycloak (Some credentials) w
           = (Returns (ValidatedToken.mk user_id sid token), w'))
      ∧ (∀ user_id sid,
           TokenIntrospection.active info = true →
           TokenIntrospection.sub info = Some user_id →
           TokenIntrospection.sid info = Some sid →
           is_uuid4 user_id = false →
           get_validated_token scheme_in keycloak (Some credentials) w
           = (Raises PydanticValidationError, w')).
Proof.
  intros Hinfo w'. split.
  - unfold validate_token, bind. rewrite introspect_token_run, Hinfo. simpl.
    unfold invariant_guard. by destruct (TokenIntrospection.active info).
  - intros scheme_in credentials Hscheme <-.
    unfold get_validated_token, bind, invariant_guard. simpl.
    rewrite Hscheme. simpl. rewrite introspect_token_run, Hinfo. simpl.
    repeat split.
    + intros ->. done.
    + intros -> ->. done.
    + intros -> [u ->] ->. done.
    + intros user_id sid -> -> -> Hv4. simpl.
      unfold lift, ValidatedToken.validate. by rewrite Hv4.
    + intros user_id sid -> -> -> Hv4. simpl.
      unfold lift, ValidatedToken.validate. by rewrite Hv4.
Qed.

(** An inactive token. *)
Lemma validation_conditions_witness :
  let info := Sample.introspection false (Some Sample.alice) (Some "s-1") in
  let keycloak := Sample.provider info (Sample.token_response None "s-1") 204 in
  a_introspect keycloak "access" = SdkResult info
  ∧ validate_token "access" keycloak (Sample.healthy [])
    = (Raises (raised_as TokenNotActiveError "Token is not active"),
       mkWorld [] [] [Introspect "access"]).
Proof.
  intros info keycloak. split; [reflexivity|].
  exact (proj1 (validation_conditions "access" keycloak (Sample.healthy []) info eq_refl)).
Defined.

(** The version of the subject decides the last step: an active result with
    both claims gives the validated token for a version-4 subject, and the
    validation error of the token's construction for a version-1 subject. *)
Example get_validated_token_subject_version :
  let w := Sample.healthy [] in
  let credentials := Some (HTTPAuthorizationCredentials.mk "Bearer" "access") in
  let keycloak sub :=
    Sample.provider (Sample.introspection true (Some sub) (Some "s-1"))
      (Sample.token_response None "s-1") 204 in
  get_validated_token (λ _, true) (keycloak Sample.alice) credentials w
  = (Returns (ValidatedToken.mk Sample.alice "s-1" "access"),
     mkWorld [] [] [Introspect "access"])
  ∧ get_validated_token (λ _, true)
      (keycloak "a11ce000-0000-1000-8000-000000000001") credentials w
    = (Raises PydanticValidationError, mkWorld [] [] [Introspect "access"]).
Proof. split; vm_compute; reflexivity. Qed.

(** ** Statements and pending failures *)

Lemma execute_goes {A} (stmt : list AuthVault.t → Outcome A * list AuthVault.t) w :
  fault_at 0 (db_faults w) = None →
  execute stmt w
  = ((stmt (vault w)).1,
     mkWorld (stmt (vault w)).2 (tail (db_faults w)) (upstream w)).
Proof.
  unfold fault_at, execute. destruct (db_faults w) as [|[e|] rest]; simpl;
    [|done|]; by destruct (stmt (vault w)).
Qed.

Lemma execute_fails {A} (stmt : list AuthVault.t → Outcome A * list AuthVault.t) w e :
  fault_at 0 (db_faults w) = Some e →
  execute stmt w = (Raises e, mkWorld (vault w) (tail (db_faults w)) (upstream w)).
Proof.
  unfold fault_at, execute. destruct (db_faults w) as [|[e'|] rest]; simpl; try done.
  by intros [= ->].
Qed.

Lemma fault_at_tail k faults : fault_at k (tail faults) = fault_at (S k) faults.
Proof. unfold fault_at. by destruct faults. Qed.

(** ** Computations that leave the vault alone *)

Lemma preserves_vault_ret {A} (a : A) : preserves_vault (ret a).
Proof. by intros w out w' [= <- <-]. Qed.

Lemma preserves_vault_raise {A} e : preserves_vault (@raise A e).
Proof. by intros w out w' [= <- <-]. Qed.

Lemma preserves_vault_lift {A} (o : Outcome A) : preserves_vault (lift o).
Proof. by intros w out w' [= <- <-]. Qed.




Lemma preserves_vault_call_upstream c : preserves_vault (call_upstream c).
Proof. by intros w out w' [= <- <-]. Qed.

Lemma preserves_vault_from_sdk {A} msg (reply : SdkReply A) :
  preserves_vault (from_sdk msg reply).
Proof.
  destruct reply; [apply preserves_vault_ret | apply preserves_vault_raise..].
Qed.

(** A statement that only reads. *)
Lemma preserves_vault_select {A} (query : list AuthVault.t → A) :
  preserves_vault (execute (λ rows, (Returns (query rows), rows))).
Proof.
  intros w out w'. unfold execute.
  destruct (db_faults w) as [|[e|] rest]; by intros [= <- <-].
Qed.

Create HintDb vault_frame.

#[local] Hint Resolve preserves_vault_ret preserves_vault_raise preserves_vault_lift
  preserves_vault_call_upstream preserves_vault_from_sdk preserves_vault_select
  : vault_frame.



(** ** Revoking an offline token *)

Lemma truthy_Some s : s ≠ "" → truthy (Some s) = true.
Proof. intros Hs. simpl. by destruct (String.eqb_spec s ""). Qed.

(** The lookup of a row that is there, has its token material and
    decrypts. *)
Lemma retrieve_and_decrypt_found encryption i w row ct v t :
  filter (λ r, AuthVault.id r = i) (vault w) = [row] →
  AuthVault.encrypted_token row = Some ct → ct ≠ "" →
  AuthVault.iv row = Some v → v ≠ "" →
  decrypt_token encryption ct v = Returns t →
  fault_at 0 (db_faults w) = None →
  VaultService.retrieve_and_decrypt encryption i w
  = (Returns (VaultEntry.model_validate row, t),
     mkWorld (vault w) (tail (db_faults w)) (upstream w)).
Proof.
  intros Hrow Hct Hct' Hiv Hiv' Hdec Hdb.
  unfold VaultService.retrieve_and_decrypt, VaultRepository.retrieve,
    raise_if_not_found_guard, try_except, bind.
  rewrite execute_goes by done. simpl. rewrite Hrow. simpl.
  unfold invariant_guard, no_encrypted_data. simpl.
  rewrite Hct, Hiv, !truthy_Some by done. simpl.
  unfold bind, lift. simpl. by rewrite Hdec.
Qed.

Lemma delete_run i w :
  fault_at 0 (db_faults w) = None →
  VaultRepository.delete i w
  = (Returns (bool_decide (0 < length (filter (λ r, AuthVault.id r = i) (vault w)))%nat),
     mkWorld (filter (λ r, AuthVault.id r ≠ i) (vault w))
       (tail (db_faults w)) (upstream w)).
Proof.
  intros Hdb. unfold VaultRepository.delete, bind. by rewrite execute_goes.
Qed.

(** The census query counts the other OFFLINE entries of the session. *)
Lemma census_query exclude_id session_state_id rows :
  where_token_type (Some OFFLINE)
    (where_id_is_not (Some exclude_id)
       (filter (λ r, AuthVault.session_state_id r = session_state_id) rows))
  = other_offline_entries exclude_id session_state_id rows.
Proof.
  unfold where_token_type, where_id_is_not, other_offline_entries.
  rewrite !list_filter_filter. apply list_filter_iff. intros r. tauto.
Qed.

Lemma check_shared_token_run session_state_id exclude_id w :
  fault_at 0 (db_faults w) = None →
  VaultService.check_shared_token session_state_id exclude_id (Some OFFLINE) w
  = (Returns (bool_decide
                (other_offline_entries exclude_id session_state_id (vault w) ≠ [])),
     mkWorld (vault w) (tail (db_faults w)) (upstream w)).
Proof.
  intros Hdb.
  unfold VaultService.check_shared_token, VaultRepository.get_all_by_session_state_id,
    bind.
  rewrite execute_goes by done.
  cbn [fst snd]. rewrite census_query. unfold ret. cbn beta iota.
  rewrite length_fmap. do 2 f_equal. apply bool_decide_ext.
  destruct (other_offline_entries _ _ _); simpl; split; (done || lia).
Qed.

Lemma check_shared_token_fails session_state_id exclude_id token_type w e :
  fault_at 0 (db_faults w) = Some e →
  VaultService.check_shared_token session_state_id exclude_id token_type w
  = (Raises e, mkWorld (vault w) (tail (db_faults w)) (upstream w)).
Proof.
  intros Hdb.
  unfold VaultService.check_shared_token, VaultRepository.get_all_by_session_state_id,
    bind.
  by rewrite (execute_fails _ _ e).
Qed.

Lemma revoke_session_accepted keycloak session_id w :
  accepts_revocation keycloak session_id →
  KeycloakService.revoke_session keycloak session_id w
  = (Returns tt,
     mkWorld (vault w) (db_faults w)
       (upstream w ++ [ClientCredentialsGrant; DeleteSession session_id])%list).
Proof.
  intros [[admin_token Hadmin] Hstatus].
  unfold KeycloakService.revoke_session, KeycloakService._get_admin_token, bind,
    call_upstream.
  rewrite Hadmin. simpl.
  destruct (delete_session keycloak session_id) as [status text]. simpl in *.
  rewrite bool_decide_eq_true_2 by done.
  unfold ret. by rewrite <- app_assoc.
Qed.

(** The first two steps of a revocation: the lookup and the delete. *)
Lemma revoke_offline_token_steps encryption i w row ct v t :
  filter (λ r, AuthVault.id r = i) (vault w) = [row] →
  AuthVault.encrypted_token row = Some ct → ct ≠ "" →
  AuthVault.iv row = Some v → v ≠ "" →
  decrypt_token encryption ct v = Returns t →
  fault_at 0 (db_faults w) = None → fault_at 1 (db_faults w) = None →
  AuthVault.id row = i
  ∧ auth_error_guard (Some TokenNotFoundError) "No offline token was found"
      (VaultService.retrieve_and_decrypt encryption i) w
    = (Returns (VaultEntry.model_validate row, t),
       mkWorld (vault w) (tail (db_faults w)) (upstream w))
  ∧ auth_error_guard (Some DatabaseError) "Delete operation failed"
      (VaultService.delete_token i)
      (mkWorld (vault w) (tail (db_faults w)) (upstream w))
    = (Returns true,
       mkWorld (filter (λ r, AuthVault.id r ≠ i) (vault w))
         (tail (tail (db_faults w))) (upstream w)).
Proof.
  intros Hrow Hct Hct' Hiv Hiv' Hdec Hdb0 Hdb1.
  split; [|split].
  - assert (Hin : row ∈ filter (λ r, AuthVault.id r = i) (vault w))
      by (rewrite Hrow; left).
    by apply list_elem_of_filter in Hin as [? _].
  - apply auth_error_guard_of_returns. by eapply retrieve_and_decrypt_found.
  - apply auth_error_guard_of_returns. unfold VaultService.delete_token.
    rewrite delete_run by (simpl; by rewrite fault_at_tail). simpl.
    rewrite Hrow. done.
Qed.

(** C2. [revoke_offline_token] on the id of a row that is there, has its
    token material and decrypts, with no persistence failure: the row is
    deleted and reported as deleted. When the vault, after the deletion,
    holds another OFFLINE entry with the same session state id, no request
    goes to the provider and the response reports [had_shared_session = true]
    and [session_revoked = false]. When it holds none, the revocation of the
    session is requested from the provider (the admin token, then the delete
    of the session) and, the provider accepting it, the response reports
    [session_revoked = true] and [had_shared_session = false]. *)
Theorem revocation_guard keycloak encryption i w row ct v t :
  filter (λ r, AuthVault.id r = i) (vault w) = [row] →
  AuthVault.encrypted_token row = Some ct → ct ≠ "" →
  AuthVault.iv row = Some v → v ≠ "" →
  decrypt_token encryption ct v = Returns t →
  fault_at 0 (db_faults w) = None → fault_at 1 (db_faults w) = None → fault_at 2 (db_faults w) = None →
  let session := AuthVault.session_state_id row in
  let remaining := filter (λ r, AuthVault.id r ≠ i) (vault w) in
  let others := other_offline_entries i session remaining in
  let response shared revoked :=
    mkOk {| OfflineTokenRevocationResponse.message := "Offline token revoked successfully";
            OfflineTokenRevocationResponse.persistent_token_id := i;
            OfflineTokenRevocationResponse.token_deleted := true;
            OfflineTokenRevocationResponse.session_revoked := revoked;
            OfflineTokenRevocationResponse.had_shared_session := shared |} in
  (others ≠ [] →
   revoke_offline_token keycloak encryption i w
   = (Returns (response true false),
      mkWorld remaining (tail (tail (tail (db_faults w)))) (upstream w)))
  ∧ (others = [] →
     accepts_revocation keycloak session →
     revoke_offline_token keycloak encryption i w
     = (Returns (response false true),
        mkWorld remaining (tail (tail (tail (db_faults w))))
          (upstream w ++ [ClientCredentialsGrant; DeleteSession session])%list)).
Proof.
  intros Hrow Hct Hct' Hiv Hiv' Hdec Hdb0 Hdb1 Hdb2. cbv zeta.
  destruct (revoke_offline_token_steps encryption i w row ct v t)
    as (Hid & Hfound & Hdel); try done.
  pose proof (check_shared_token_run (AuthVault.session_state_id row) i
                (mkWorld (filter (λ r, AuthVault.id r ≠ i) (vault w))
                   (tail (tail (db_faults w))) (upstream w))) as Hcensus.
  cbn [vault db_faults upstream] in Hcensus. rewrite !fault_at_tail in Hcensus.
  specialize (Hcensus Hdb2).
  unfold revoke_offline_token, bind. rewrite Hfound. cbn [fst].
  replace (VaultEntry.id (VaultEntry.model_validate row)) with i by done.
  replace (VaultEntry.session_state_id (VaultEntry.model_validate row))
    with (AuthVault.session_state_id row) by done.
  rewrite Hdel.
  unfold auth_error_guard, try_except, bind. rewrite Hcensus.
  split.
  - intros Hshared. rewrite bool_decide_eq_true_2 by done. done.
  - intros Hnone Hacc. rewrite bool_decide_eq_false_2 by auto. cbn [negb].
    rewrite revoke_session_accepted by done. done.
Qed.

(** Two entries share session s-1, a third has session s-2 to itself. *)
Lemma revocation_guard_witness :
  let first := Sample.row Sample.id1 Sample.alice OFFLINE "s-1" "ot-1" 1 in
  let second := Sample.row Sample.id2 Sample.alice OFFLINE "s-1" "ot-2" 2 in
  let third := Sample.row Sample.id3 Sample.bob OFFLINE "s-2" "ot-3" 3 in
  let w := Sample.healthy [first; second; third] in
  let keycloak :=
    Sample.provider (Sample.introspection true (Some Sample.alice) (Some "s-1"))
      (Sample.token_response None "s-1") 204 in
  let response id shared revoked :=
    mkOk (OfflineTokenRevocationResponse.mk "Offline token revoked successfully"
            id true revoked shared) in
  revoke_offline_token keycloak Sample.encryption Sample.id1 w
  = (Returns (response Sample.id1 true false), mkWorld [second; third] [] [])
  ∧ revoke_offline_token keycloak Sample.encryption Sample.id3 w
    = (Returns (response Sample.id3 false true),
       mkWorld [first; second] [] [ClientCredentialsGrant; DeleteSession "s-2"]).
Proof.
  intros first second third w keycloak response. split.
  - refine (proj1 (revocation_guard keycloak Sample.encryption Sample.id1 w first
                     "iv0:ot-1" "iv0" "ot-1" _ _ _ _ _ _ _ _ _) _);
      by vm_compute.
  - refine (proj2 (revocation_guard keycloak Sample.encryption Sample.id3 w third
                     "iv0:ot-3" "iv0" "ot-3" _ _ _ _ _ _ _ _ _) _ _);
      try by vm_compute.
    split; [by eexists|]. vm_compute. apply list_elem_of_In. simpl. auto.
Defined.

(** ** The state token *)

Section StateToken.
Variable hmac_sha256 : string → segment * segment → string.

Abbreviation make_ack_state := (AcknowledgementKeycloakStateService.make_ack_state hmac_sha256).
Abbreviation parse_ack_state := (AcknowledgementKeycloakStateService.parse_ack_state hmac_sha256).

(** Every failure of [jwt.decode] is an [InvalidTokenError]. *)
Lemma decode_raises token key algorithms verify_exp now e :
  jwt.decode hmac_sha256 token key algorithms verify_exp now = Raises e →
  ∃ msg, e = InvalidTokenError msg.
Proof.
  unfold jwt.decode, jwt.not_in_the_future, jwt.not_expired, and_then.
  intros H. repeat case_match; simplify_eq; eauto.
Qed.

(** What [jwt.decode] returns is the object in the payload segment. *)
Lemma decode_returns token key algorithms verify_exp now payload :
  jwt.decode hmac_sha256 token key algorithms verify_exp now = Returns payload →
  jws_payload token = JsonObject payload.
Proof.
  unfold jwt.decode, jwt.not_in_the_future, jwt.not_expired, and_then.
  intros H. repeat case_match; simplify_eq; done.
Qed.

(** A token under the HS256 header whose signature is not the digest of its
    signing input under the service's secret is refused. *)
Lemma parse_ack_state_bad_signature secret now token :
  jws_header token = JsonObject {[ "alg" := VStr "HS256"; "typ" := VStr "JWT" ]} →
  hmac_sha256 secret (signing_input token) ≠ jws_signature token →
  fails_invalid_state_token (parse_ack_state secret now token).
Proof.
  intros Hheader Hsig.
  unfold AcknowledgementKeycloakStateService.parse_ack_state, jwt.decode.
  rewrite Hheader. simplify_map_eq.
  destruct (String.eqb_spec (jws_signature token)
              (hmac_sha256 secret (signing_input token))) as [Heq|_];
    [by destruct Hsig|].
  simpl. by eexists.
Qed.

(** A token whose payload lacks one of the two fields is refused, signed or
    not. *)
Lemma parse_ack_state_missing_field secret now token :
  (∀ claims, jws_payload token = JsonObject claims →
             claims !! "user_id" = None ∨ claims !! "session_state_id" = None) →
  fails_invalid_state_token (parse_ack_state secret now token).
Proof.
  intros Hmissing. unfold AcknowledgementKeycloakStateService.parse_ack_state.
  destruct (jwt.decode _ _ _ _ _ _) as [payload|e] eqn:Hdec.
  - apply decode_returns in Hdec.
    unfold and_then, getitem.
    destruct (Hmissing _ Hdec) as [Hu|Hs].
    + rewrite Hu. by eexists.
    + destruct (payload !! "user_id"); rewrite ?Hs; by eexists.
  - apply decode_raises in Hdec as [msg ->]. simpl. by eexists.
Qed.

(** When the expiry is a [datetime], [make_ack_state] returns the signed
    token of the four claims. *)
Lemma make_ack_state_returns secret issued_at user_id session_state_id expires_in :
  expiry_is_datetime issued_at expires_in →
  make_ack_state secret issued_at user_id session_state_id expires_in
  = Returns (jwt.encode hmac_sha256
               {[ "user_id" := VStr user_id;
                  "session_state_id" := VStr session_state_id;
                  "exp" := VInt (issued_at + expires_in);
                  "iat" := VInt issued_at ]} secret "HS256").
Proof.
  intros [Hdelta [Hmin Hmax]].
  unfold AcknowledgementKeycloakStateService.make_ack_state, timedelta, datetime_add.
  rewrite (proj2 (Z.leb_le _ _) Hdelta). simpl.
  by rewrite (proj2 (Z.leb_le _ _) Hmin), (proj2 (Z.leb_le _ _) Hmax).
Qed.

(** When it is not, [make_ack_state] raises [OverflowError]. *)
Lemma make_ack_state_overflows secret issued_at user_id session_state_id expires_in :
  ¬ expiry_is_datetime issued_at expires_in →
  make_ack_state secret issued_at user_id session_state_id expires_in
  = Raises (OtherError "OverflowError").
Proof.
  intros Hout.
  unfold AcknowledgementKeycloakStateService.make_ack_state, timedelta, datetime_add.
  destruct (Z.leb_spec (Z.abs (expires_in / 86400)) 999999999) as [Hdelta|_]; [|done].
  simpl.
  destruct (Z.leb_spec datetime_min (issued_at + expires_in)) as [Hmin|_]; [|done].
  destruct (Z.leb_spec (issued_at + expires_in) datetime_max) as [Hmax|_]; [|done].
  by destruct Hout.
Qed.

Lemma parse_make_ack_state secret issued_at now user_id session_state_id expires_in :
  issued_at ≤ now →
  parse_ack_state secret now
    (jwt.encode hmac_sha256
       {[ "user_id" := VStr user_id;
          "session_state_id" := VStr session_state_id;
          "exp" := VInt (issued_at + expires_in);
          "iat" := VInt issued_at ]} secret "HS256")
  = Returns (AckStateTokenPayload.mk user_id session_state_id).
Proof.
  intros Hclock.
  unfold AcknowledgementKeycloakStateService.parse_ack_state, jwt.encode, jwt.decode,
    signing_input.
  cbn [jws_header jws_payload jws_signature]. simplify_map_eq.
  rewrite String.eqb_refl. cbn [negb].
  unfold jwt.not_in_the_future, jwt.not_expired, getitem. simplify_map_eq.
  rewrite (proj2 (Z.ltb_ge now issued_at)) by done. done.
Qed.

(** C6 as stated fails: the expiry is computed as a [datetime], and a ttl of
    10^12 seconds puts it after year 9999. [make_ack_state] raises
    [OverflowError], so there is no token to parse. *)
Lemma make_ack_state_ttl_out_of_range :
  let make := AcknowledgementKeycloakStateService.make_ack_state Sample.hmac in
  let parse := AcknowledgementKeycloakStateService.parse_ack_state Sample.hmac in
  make "secret" 1762214400 Sample.alice "s-1" (10 ^ 12)
  = Raises (OtherError "OverflowError")
  ∧ and_then (make "secret" 1762214400 Sample.alice "s-1" (10 ^ 12))
      (parse "secret" 1762214400)
    = Raises (OtherError "OverflowError").
Proof. split; vm_compute; reflexivity. Qed.

(** C6, amended. For every user id, session state id and ttl whose expiry,
    the issue time plus the ttl, is a [datetime] (a ttl that is a
    [timedelta], and a sum within the years 1 to 9999), [make_ack_state]
    returns a token, and that token parses, at any time from then on, before
    or after its expiry, to exactly that user id and session state id. The
    same token parsed under a secret whose digest of the signing input is
    different, and the token with its payload segment replaced so that the
    signature no longer is the digest of the signing input, fail with
    [InvalidStateTokenError]. For every other ttl [make_ack_state] raises
    [OverflowError]. Any token whose payload lacks [user_id] or
    [session_state_id] fails with [InvalidStateTokenError]. *)
Theorem ack_state_round_trip secret issued_at now user_id session_state_id expires_in :
  issued_at ≤ now →
  (expiry_is_datetime issued_at expires_in →
   ∃ token,
     make_ack_state secret issued_at user_id session_state_id expires_in = Returns token
     ∧ parse_ack_state secret now token
       = Returns (AckStateTokenPayload.mk user_id session_state_id)
     ∧ (∀ other_secret,
          hmac_sha256 other_secret (signing_input token) ≠ jws_signature token →
          fails_invalid_state_token (parse_ack_state other_secret now token))
     ∧ (∀ payload,
          hmac_sha256 secret (jws_header token, payload) ≠ jws_signature token →
          fails_invalid_state_token
            (parse_ack_state secret now
               (mkCompactToken (jws_header token) payload (jws_signature token)))))
  ∧ (¬ expiry_is_datetime issued_at expires_in →
     make_ack_state secret issued_at user_id session_state_id expires_in
     = Raises (OtherError "OverflowError"))
  ∧ (∀ forged : CompactToken,
       (∀ claims, jws_payload forged = JsonObject claims →
                  claims !! "user_id" = None ∨ claims !! "session_state_id" = None) →
       fails_invalid_state_token (parse_ack_state secret now forged)).
Proof.
  intros Hclock. split; [|split].
  - intros Hexpiry. eexists. split; [by apply make_ack_state_returns|].
    split; [by apply parse_make_ack_state|]. split.
    + intros other_secret Hsig. by apply parse_ack_state_bad_signature.
    + intros payload Hsig. by apply parse_ack_state_bad_signature.
  - apply make_ack_state_overflows.
  - intros forged Hmissing. by apply parse_ack_state_missing_field.
Qed.

End StateToken.

(** A token parsed an hour after it expired, under its secret and under
    another, with the user swapped in its payload, and a signed token without
    session state id. *)
Lemma ack_state_round_trip_witness :
  let make := AcknowledgementKeycloakStateService.make_ack_state Sample.hmac in
  let parse := AcknowledgementKeycloakStateService.parse_ack_state Sample.hmac in
  let after_expiry := 1000 + default_expires_in + 3600 in
  let swapped : dict :=
    {[ "user_id" := VStr Sample.bob; "session_state_id" := VStr "s-1";
       "exp" := VInt 1600; "iat" := VInt 1000 ]} in
  1000 ≤ after_expiry
  ∧ expiry_is_datetime 1000 default_expires_in
  ∧ ∃ token,
      make "secret" 1000 Sample.alice "s-1" default_expires_in = Returns token
      ∧ parse "secret" after_expiry token
        = Returns (AckStateTokenPayload.mk Sample.alice "s-1")
      ∧ fails_invalid_state_token (parse "another secret" after_expiry token)
      ∧ fails_invalid_state_token
          (parse "secret" after_expiry
             (mkCompactToken (jws_header token) (JsonObject swapped)
                (jws_signature token)))
      ∧ fails_invalid_state_token
          (parse "secret" after_expiry
             (jwt.encode Sample.hmac {[ "user_id" := VStr Sample.alice ]} "secret"
                "HS256")).
Proof.
  intros make parse after_expiry swapped.
  assert (Hclock : 1000 ≤ after_expiry) by (by vm_compute).
  assert (Hexpiry : expiry_is_datetime 1000 default_expires_in)
    by (by vm_compute).
  destruct (ack_state_round_trip Sample.hmac "secret" 1000 after_expiry Sample.alice
              "s-1" default_expires_in Hclock) as (Hreturns & _ & Hfield).
  destruct (Hreturns Hexpiry) as (token & Hmake & Hparse & Hsecret & Hpayload).
  split; [exact Hclock|]. split; [exact Hexpiry|].
  exists token. split; [exact Hmake|]. split; [exact Hparse|].
  vm_compute in Hmake. injection Hmake as <-.
  split; [|split].
  - apply Hsecret. by vm_compute.
  - apply Hpayload. by vm_compute.
  - apply Hfield. intros claims [= <-]. right. by vm_compute.
Defined.

(** * Further properties *)

(** ** Deleting and looking up *)

Lemma filter_id_after_delete (i : UUID) (rows : list AuthVault.t) :
  filter (λ r, AuthVault.id r = i) (filter (λ r, AuthVault.id r ≠ i) rows) = [].
Proof.
  induction rows as [|r rows IH]; [done|].
  rewrite (filter_cons (λ r, AuthVault.id r ≠ i)).
  destruct (decide (AuthVault.id r ≠ i)); [|done].
  by rewrite filter_cons_False by done.
Qed.

Lemma filter_delete_twice (i : UUID) (rows : list AuthVault.t) :
  filter (λ r, AuthVault.id r ≠ i) (filter (λ r, AuthVault.id r ≠ i) rows)
  = filter (λ r, AuthVault.id r ≠ i) rows.
Proof.
  rewrite list_filter_filter. apply list_filter_iff. intros r. tauto.
Qed.

Lemma rowcount_positive {A} (P : A → Prop) `{!∀ x, Decision (P x)} (l : list A) :
  bool_decide (0 < length (filter P l))%nat = bool_decide (Exists P l).
Proof.
  apply bool_decide_ext. rewrite Exists_exists. split.
  - destruct (filter P l) as [|x l'] eqn:Hf; simpl; [lia|]. intros _.
    assert (Hin : x ∈ filter P l) by (rewrite Hf; left).
    apply list_elem_of_filter in Hin as [? ?]. eauto.
  - intros (x & Hin & HP).
    assert (Hf : x ∈ filter P l) by (by apply list_elem_of_filter).
    destruct (filter P l); [by apply not_elem_of_nil in Hf | simpl; lia].
Qed.

(** X1. A delete is final: with the database answering, a second delete of
    the same id reports that nothing was deleted, and looking the id up after
    the delete fails with [TokenNotFoundError] ("Token not found"); the first
    delete reports [True] exactly when a row had that id, and the rows with
    another id are all that is left. *)
Theorem delete_is_final encryption i w :
  fault_at 0 (db_faults w) = None →
  fault_at 1 (db_faults w) = None →
  let gone :=
    mkWorld (filter (λ r, AuthVault.id r ≠ i) (vault w))
      (tail (tail (db_faults w))) (upstream w) in
  (first <- VaultService.delete_token i ;;
   second <- VaultService.delete_token i ;;
   ret (first, second)) w
  = (Returns (bool_decide (Exists (λ r, AuthVault.id r = i) (vault w)), false), gone)
  ∧ (_ <- VaultService.delete_token i ;;
     VaultService.retrieve_and_decrypt encryption i) w
    = (Raises (raised_as TokenNotFoundError "Token not found"), gone).
Proof.
  intros Hdb0 Hdb1. cbv zeta.
  pose proof (delete_run i w Hdb0) as Hfirst.
  pose proof (delete_run i
                (mkWorld (filter (λ r, AuthVault.id r ≠ i) (vault w))
                   (tail (db_faults w)) (upstream w))) as Hsecond.
  cbn [vault db_faults upstream] in Hsecond.
  rewrite fault_at_tail, filter_id_after_delete, filter_delete_twice in Hsecond.
  specialize (Hsecond Hdb1).
  unfold VaultService.delete_token. split.
  - rewrite (bind_of_returns _ _ _ _ _ Hfirst), (bind_of_returns _ _ _ _ _ Hsecond).
    by rewrite rowcount_positive.
  - rewrite (bind_of_returns _ _ _ _ _ Hfirst).
    unfold VaultService.retrieve_and_decrypt, VaultRepository.retrieve,
      raise_if_not_found_guard, try_except, bind.
    rewrite execute_goes by (simpl; by rewrite fault_at_tail).
    cbn [fst snd vault db_faults upstream]. by rewrite filter_id_after_delete.
Qed.

Lemma delete_is_final_witness :
  let first := Sample.row Sample.id1 Sample.alice OFFLINE "s-1" "ot-1" 1 in
  let second := Sample.row Sample.id2 Sample.alice OFFLINE "s-1" "ot-2" 2 in
  let w := Sample.healthy [first; second] in
  fault_at 0 (db_faults w) = None
  ∧ (a <- VaultService.delete_token Sample.id1 ;;
     b <- VaultService.delete_token Sample.id1 ;;
     ret (a, b)) w
    = (Returns (true, false), Sample.healthy [second]).
Proof.
  intros first second w. split; [reflexivity|].
  exact (proj1 (delete_is_final Sample.encryption Sample.id1 w eq_refl eq_refl)).
Defined.

(** X2. Looking up an id that is not there or whose row has no token
    material: with the database answering, [retrieve_and_decrypt] fails with
    a [TokenNotFoundError], "Token not found" in the first case and "Token has
    no encrypted data" in the second; both carry the code [token_not_found],
    which is reported with status 404, and the world is left as it was. *)
Theorem retrieve_and_decrypt_not_found encryption i w :
  fault_at 0 (db_faults w) = None →
  let w' := mkWorld (vault w) (tail (db_faults w)) (upstream w) in
  (filter (λ r, AuthVault.id r = i) (vault w) = [] →
   VaultService.retrieve_and_decrypt encryption i w
   = (Raises (AuthManagerExc
                (mkAuthErr TokenNotFoundError "Token not found" "token_not_found" ∅)),
      w'))
  ∧ (∀ row,
       filter (λ r, AuthVault.id r = i) (vault w) = [row] →
       no_encrypted_data (VaultEntry.model_validate row) = true →
       VaultService.retrieve_and_decrypt encryption i w
       = (Raises (AuthManagerExc
                    (mkAuthErr TokenNotFoundError "Token has no encrypted data"
                       "token_not_found" ∅)),
          w'))
  ∧ status_of_code "token_not_found" = 404.
Proof.
  intros Hdb. cbv zeta.
  unfold VaultService.retrieve_and_decrypt, VaultRepository.retrieve,
    raise_if_not_found_guard, try_except, bind.
  rewrite execute_goes by done. cbn [fst snd]. split; [|split].
  - by intros ->.
  - intros row -> Hbare. simpl. unfold invariant_guard. by rewrite Hbare.
  - by vm_compute.
Qed.

Lemma retrieve_and_decrypt_not_found_witness :
  let bare := Sample.bare_row Sample.id1 Sample.bob OFFLINE "s-1" 1 in
  let w := Sample.healthy [bare] in
  fault_at 0 (db_faults w) = None
  ∧ VaultService.retrieve_and_decrypt Sample.encryption Sample.id2 w
    = (Raises (raised_as TokenNotFoundError "Token not found"), w)
  ∧ VaultService.retrieve_and_decrypt Sample.encryption Sample.id1 w
    = (Raises (raised_as TokenNotFoundError "Token has no encrypted data"), w).
Proof.
  intros bare w.
  destruct (retrieve_and_decrypt_not_found Sample.encryption Sample.id2 w eq_refl)
    as (Hmissing & _ & _).
  destruct (retrieve_and_decrypt_not_found Sample.encryption Sample.id1 w eq_refl)
    as (_ & Hbare & _).
  split; [reflexivity|]. split.
  - apply Hmissing. by vm_compute.
  - apply (Hbare bare); by vm_compute.
Defined.

(** ** The duplicate check *)

(** X3. [check_duplicate_token_hash], with the database answering: it
    returns [False] when no other row carries the hash, [True] when exactly
    one other row does, and raises [MultipleResultsFound] when two or more
    other rows do. *)
Theorem check_duplicate_token_hash_cases token_hash exclude_id w :
  fault_at 0 (db_faults w) = None →
  let others :=
    filter (λ r, AuthVault.token_hash r = Some token_hash
                 ∧ AuthVault.id r ≠ exclude_id) (vault w) in
  let w' := mkWorld (vault w) (tail (db_faults w)) (upstream w) in
  VaultRepository.check_duplicate_token_hash token_hash exclude_id w
  = (match others with
     | [] => Returns false
     | [_] => Returns true
     | _ => Raises MultipleResultsFound
     end, w').
Proof.
  intros Hdb. cbv zeta.
  unfold VaultRepository.check_duplicate_token_hash, bind.
  rewrite execute_goes by done. cbn [fst snd].
  by destruct (filter _ (vault w)) as [|? [|? ?]].
Qed.

Lemma check_duplicate_token_hash_cases_witness :
  let a := Sample.row Sample.id1 Sample.alice OFFLINE "s-1" "same" 1 in
  let b := Sample.row Sample.id2 Sample.alice OFFLINE "s-2" "same" 2 in
  let c := Sample.row Sample.id3 Sample.bob OFFLINE "s-3" "same" 3 in
  fault_at 0 (db_faults (Sample.healthy [a; b; c])) = None
  ∧ VaultRepository.check_duplicate_token_hash "sha256:same" Sample.id1
      (Sample.healthy [a; b; c])
    = (Raises MultipleResultsFound, Sample.healthy [a; b; c])
  ∧ VaultRepository.check_duplicate_token_hash "sha256:same" Sample.id1
      (Sample.healthy [a; b])
    = (Returns true, Sample.healthy [a; b]).
Proof.
  intros a b c. split; [reflexivity|]. split.
  - exact (check_duplicate_token_hash_cases "sha256:same" Sample.id1
             (Sample.healthy [a; b; c]) eq_refl).
  - exact (check_duplicate_token_hash_cases "sha256:same" Sample.id1
             (Sample.healthy [a; b]) eq_refl).
Defined.

(** ** Storing *)

(** A [store] that returns encrypted and hashed its token, found the new id
    free, appended its row and used two statements. *)
Lemma store_returns encryption amb user_id token token_type session_state_id
    attributes w e w' :
  VaultService.store encryption amb user_id token token_type session_state_id
    attributes w = (Returns e, w') →
  ∃ encrypted hash,
    encrypt_token encryption token (fresh_iv amb) = Returns encrypted
    ∧ hash_token encryption token = Returns hash
    ∧ e = VaultEntry.model_validate
            (stored_row (mkStoreCall amb user_id token token_type session_state_id
                           attributes) encrypted hash)
    ∧ Forall (λ r, AuthVault.id r ≠ fresh_uuid amb) (vault w)
    ∧ w' = mkWorld
             (vault w ++ [stored_row (mkStoreCall amb user_id token token_type
                                        session_state_id attributes) encrypted hash])%list
             (tail (tail (db_faults w))) (upstream w).
Proof.
  unfold VaultService.store. intros H.
  apply bind_returns in H as (encrypted & w1 & Henc & H).
  apply bind_returns in H as (hash & w2 & Hhash & H).
  apply lift_returns in Henc as [Henc ->].
  apply lift_returns in Hhash as [Hhash ->].
  unfold VaultRepository.create in H.
  apply bind_returns in H as ([] & w1 & Hins & H).
  apply bind_returns in H as ([] & w2 & Href & H).
  apply execute_returns in Hins as (rows & Hins & ->). simpl in Hins.
  case_bool_decide as Hfree; [discriminate|]. injection Hins as <-.
  apply execute_returns in Href as (rows & [= <-] & ->).
  apply ret_returns in H as [-> ->].
  exists encrypted, hash. repeat split; try done.
  apply Forall_forall. intros r Hr Hid. apply Hfree, Exists_exists. eauto.
Qed.

Lemma filter_id_appended (row : AuthVault.t) (rows : list AuthVault.t) :
  Forall (λ r, AuthVault.id r ≠ AuthVault.id row) rows →
  filter (λ r, AuthVault.id r = AuthVault.id row) (rows ++ [row])%list = [row].
Proof.
  intros Hfree. rewrite filter_app.
  replace (filter _ rows) with (@nil AuthVault.t).
  - simpl. by rewrite filter_cons_True.
  - symmetry. induction Hfree as [|r rows Hr _ IH]; [done|].
    by rewrite filter_cons_False.
Qed.

(** X4. Store and look up: when [store] returns an entry, the encryption
    service gives back the token it encrypted under that iv, and the
    ciphertext and the iv are not empty, then [retrieve_and_decrypt] of the
    entry's id, the database answering, returns that entry with the token
    that was stored. *)
Theorem store_then_retrieve encryption amb user_id token token_type
    session_state_id attributes w e w1 :
  VaultService.store encryption amb user_id (Some token) token_type
    session_state_id attributes w = (Returns e, w1) →
  (∀ encrypted,
     encrypt_token encryption (Some token) (fresh_iv amb) = Returns encrypted →
     encrypted ≠ ""
     ∧ decrypt_token encryption encrypted (fresh_iv amb) = Returns token) →
  fresh_iv amb ≠ "" →
  fault_at 0 (db_faults w1) = None →
  VaultService.retrieve_and_decrypt encryption (VaultEntry.id e) w1
  = (Returns (e, token), mkWorld (vault w1) (tail (db_faults w1)) (upstream w1)).
Proof.
  intros Hstore Hround Hiv Hdb.
  apply store_returns in Hstore as (encrypted & hash & Henc & _ & -> & Hfree & ->).
  destruct (Hround _ Henc) as [Hne Hdec].
  eapply retrieve_and_decrypt_found; try done.
  cbn [vault]. by apply (filter_id_appended (stored_row _ encrypted hash)).
Qed.

Lemma store_then_retrieve_witness :
  let amb := mkAmbient Sample.id2 7 "iv7" in
  let w := Sample.healthy [Sample.row Sample.id1 Sample.alice OFFLINE "s-1" "ot-1" 1] in
  ∃ e w1,
    VaultService.store Sample.encryption amb Sample.bob (Some "ot-2") OFFLINE "s-2"
      None w = (Returns e, w1)
    ∧ VaultService.retrieve_and_decrypt Sample.encryption (VaultEntry.id e) w1
      = (Returns (e, "ot-2"), mkWorld (vault w1) (tail (db_faults w1)) (upstream w1)).
Proof.
  intros amb w. do 2 eexists. split.
  - vm_compute. reflexivity.
  - eapply (store_then_retrieve Sample.encryption amb Sample.bob "ot-2" OFFLINE "s-2"
              None w).
    + vm_compute. reflexivity.
    + intros encrypted [= <-]. by vm_compute.
    + by vm_compute.
    + by vm_compute.
Defined.

(** X5. Stores accumulate: when a sequence of [store] calls returns, the
    vault is the one of before followed by one new row per call, in the order
    of the calls; each row carries its call's user, type, session, attributes,
    iv and the encryption and hash of its token; the new ids are pairwise
    distinct and distinct from every id that was there, and the rows that
    were there are untouched. *)
Theorem store_all_accumulates encryption calls w entries w' :
  store_all encryption calls w = (Returns entries, w') →
  ∃ rows,
    vault w' = (vault w ++ rows)%list
    ∧ entries = VaultEntry.model_validate <$> rows
    ∧ Forall2 (λ c r, ∃ encrypted hash,
                 encrypt_token encryption (store_token c)
                   (fresh_iv (store_ambient c)) = Returns encrypted
                 ∧ hash_token encryption (store_token c) = Returns hash
                 ∧ r = stored_row c encrypted hash) calls rows
    ∧ NoDup (AuthVault.id <$> rows)
    ∧ (∀ r old, r ∈ rows → old ∈ vault w → AuthVault.id r ≠ AuthVault.id old).
Proof.
  revert w entries. induction calls as [|c calls IH]; intros w entries H; simpl in H.
  - apply ret_returns in H as [-> ->]. exists []. rewrite app_nil_r.
    repeat split; try constructor. intros r old Hr. by apply not_elem_of_nil in Hr.
  - apply bind_returns in H as (e & w1 & Hstore & H).
    apply bind_returns in H as (es & w2 & Hrest & H).
    apply ret_returns in H as [-> ->].
    apply store_returns in Hstore as (encrypted & hash & Henc & Hhash & -> & Hfree & ->).
    apply IH in Hrest as (rows & Hvault & -> & Hcalls & Hnodup & Hfresh).
    cbn [vault] in Hvault, Hfresh.
    exists (stored_row c encrypted hash :: rows). repeat split.
    + by rewrite Hvault, <- app_assoc.
    + constructor; [|done]. exists encrypted, hash. by destruct c.
    + rewrite fmap_cons. constructor; [|done].
      intros Hin. apply list_elem_of_fmap in Hin as (r & Hid & Hr).
      apply (Hfresh r (stored_row c encrypted hash)); [done| |done].
      apply elem_of_app. right. left.
    + intros r old Hr Hold. apply elem_of_cons in Hr as [->|Hr].
      * rewrite Forall_forall in Hfree. intros Hid. by apply (Hfree old Hold).
      * apply Hfresh; [done|]. apply elem_of_app. by left.
Qed.

Lemma store_all_accumulates_witness :
  let first := mkStoreCall (mkAmbient Sample.id1 1 "iv1") Sample.alice (Some "ot-1")
                 OFFLINE "s-1" None in
  let second := mkStoreCall (mkAmbient Sample.id2 2 "iv2") Sample.alice (Some "ot-2")
                  OFFLINE "s-1" (Some {[ "from" := VStr Sample.id1 ]}) in
  ∃ entries w',
    store_all Sample.encryption [first; second] (Sample.healthy []) = (Returns entries, w')
    ∧ vault w' = [stored_row first "iv1:ot-1" "sha256:ot-1";
                  stored_row second "iv2:ot-2" "sha256:ot-2"]
    ∧ ∃ rows, vault w' = ([] ++ rows)%list
              ∧ NoDup (AuthVault.id <$> rows).
Proof.
  intros first second. do 2 eexists. split; [vm_compute; reflexivity|].
  split; [reflexivity|].
  destruct (store_all_accumulates Sample.encryption [first; second] (Sample.healthy [])
              _ _ eq_refl) as (rows & Hvault & _ & _ & Hnodup & _).
  exists rows. by split.
Defined.

(** ** More on the upsert *)

(** How the repository's upsert got to return: it found no REFRESH row of
    the user and appended one under a free id, or it found exactly one and
    rewrote the rows of that id. *)
Lemma repository_upsert_cases amb user_id ct iv h s attrs w i w' :
  VaultRepository.upsert_refresh_token amb user_id ct iv h s attrs w = (Returns i, w') →
  (refresh_rows user_id (vault w) = []
   ∧ i = fresh_uuid amb
   ∧ Forall (λ r, AuthVault.id r ≠ i) (vault w)
   ∧ vault w' = (vault w ++ [AuthVault.mk i user_id REFRESH (Some ct) (Some iv) (Some h)
                               attrs s (db_now amb) None])%list)
  ∨ (∃ r, refresh_rows user_id (vault w) = [r]
          ∧ i = AuthVault.id r
          ∧ vault w' = VaultRepository.update_values amb i ct iv h s attrs <$> vault w).
Proof.
  unfold VaultRepository.upsert_refresh_token. intros H.
  apply bind_returns in H as (existing & w1 & Hget & H).
  apply retrieve_by_user_id_returns in Hget as [-> Hget].
  rewrite refresh_rows_nested in Hget.
  destruct Hget as [[Hnil ->]|(row & Hrow & ->)].
  - left. apply bind_returns in H as (entry & w2 & Hnew & H).
    apply ret_returns in H as [-> ->].
    unfold VaultRepository.create in Hnew.
    apply bind_returns in Hnew as ([] & w3 & Hins & Hnew).
    apply bind_returns in Hnew as ([] & w4 & Href & Hnew).
    apply execute_returns in Hins as (rows & Hins & ->). simpl in Hins.
    case_bool_decide as Hfree; [discriminate|]. injection Hins as <-.
    apply execute_returns in Href as (rows & [= <-] & ->).
    apply ret_returns in Hnew as [-> ->]. simpl. repeat split; try done.
    apply Forall_forall. intros r Hr Hid. apply Hfree, Exists_exists. eauto.
  - right. exists row. apply bind_returns in H as ([] & w2 & Hupd & H).
    apply execute_returns in Hupd as (rows & [= <-] & ->).
    by apply ret_returns in H as [-> ->].
Qed.

Lemma update_values_id amb i ct iv h s attrs r :
  AuthVault.id (VaultRepository.update_values amb i ct iv h s attrs r) = AuthVault.id r.
Proof. unfold VaultRepository.update_values. by destruct (decide _). Qed.

Lemma update_values_other amb i ct iv h s attrs r :
  AuthVault.id r ≠ i → VaultRepository.update_values amb i ct iv h s attrs r = r.
Proof. intros Hid. unfold VaultRepository.update_values. by rewrite decide_False. Qed.

Lemma update_values_other_ids amb i ct iv h s attrs (rows : list AuthVault.t) :
  filter (λ r, AuthVault.id r ≠ i)
    (VaultRepository.update_values amb i ct iv h s attrs <$> rows)
  = filter (λ r, AuthVault.id r ≠ i) rows.
Proof.
  induction rows as [|r rows IH]; [done|]. rewrite fmap_cons.
  destruct (decide (AuthVault.id r = i)) as [Hid|Hid].
  - rewrite !filter_cons_False; [done|tauto|].
    rewrite update_values_id. tauto.
  - rewrite update_values_other by done. by rewrite !filter_cons_True, IH.
Qed.

(** X6. What an upsert leaves alone: when [upsert_refresh_token] returns an
    id, the rows of every other id are exactly what they were, in the same
    order; OFFLINE rows and other users' rows are never rewritten, as long as
    they do not share the id of the REFRESH row. *)
Theorem upsert_leaves_other_ids encryption amb user_id token session_state_id
    attributes w i w' :
  VaultService.upsert_refresh_token encryption amb user_id token session_state_id
    attributes w = (Returns i, w') →
  filter (λ r, AuthVault.id r ≠ i) (vault w')
  = filter (λ r, AuthVault.id r ≠ i) (vault w).
Proof.
  unfold VaultService.upsert_refresh_token. intros H.
  apply bind_returns in H as (encrypted & w1 & Henc & H).
  apply bind_returns in H as (hash & w2 & Hhash & H).
  apply lift_returns in Henc as [_ ->]. apply lift_returns in Hhash as [_ ->].
  apply repository_upsert_cases in H
    as [(_ & _ & _ & ->)|(r & _ & _ & ->)].
  - rewrite filter_app. simpl. rewrite filter_cons_False by (simpl; tauto).
    by rewrite app_nil_r.
  - apply update_values_other_ids.
Qed.

Lemma upsert_leaves_other_ids_witness :
  let offline := Sample.row Sample.id1 Sample.alice OFFLINE "s-1" "ot-1" 1 in
  let refresh := Sample.row Sample.id2 Sample.alice REFRESH "s-1" "rt-1" 2 in
  let w := Sample.healthy [offline; refresh] in
  ∃ w',
    VaultService.upsert_refresh_token Sample.encryption (mkAmbient Sample.id3 9 "iv9")
      Sample.alice (Some "rt-2") "s-2" None w = (Returns Sample.id2, w')
    ∧ filter (λ r, AuthVault.id r ≠ Sample.id2) (vault w') = [offline].
Proof.
  intros offline refresh w. eexists. split; [vm_compute; reflexivity|].
  transitivity (filter (λ r, AuthVault.id r ≠ Sample.id2) (vault w)); [|by vm_compute].
  apply (upsert_leaves_other_ids Sample.encryption (mkAmbient Sample.id3 9 "iv9")
           Sample.alice (Some "rt-2") "s-2" None w Sample.id2).
  vm_compute. reflexivity.
Defined.

(** X7. The REFRESH row is replaced in place: when the user has one REFRESH
    row and [upsert_refresh_token] returns, it returns the id of that row,
    the vault has as many rows as before, and the user's REFRESH row keeps
    its id, user and creation time and has the time of the call as its
    update time. *)
Theorem upsert_replaces_in_place encryption amb user_id token session_state_id
    attributes w r i w' :
  refresh_rows user_id (vault w) = [r] →
  VaultService.upsert_refresh_token encryption amb user_id token session_state_id
    attributes w = (Returns i, w') →
  i = AuthVault.id r
  ∧ length (vault w') = length (vault w)
  ∧ ∃ r', refresh_rows user_id (vault w') = [r']
          ∧ AuthVault.id r' = AuthVault.id r
          ∧ AuthVault.user_id r' = AuthVault.user_id r
          ∧ AuthVault.created_at r' = AuthVault.created_at r
          ∧ AuthVault.updated_at r' = Some (db_now amb).
Proof.
  intros Hone. unfold VaultService.upsert_refresh_token. intros H.
  apply bind_returns in H as (encrypted & w1 & Henc & H).
  apply bind_returns in H as (hash & w2 & Hhash & H).
  apply lift_returns in Henc as [_ ->]. apply lift_returns in Hhash as [_ ->].
  apply repository_upsert_cases in H
    as [(Hnil & _)|(r0 & Hr0 & -> & ->)]; [congruence|].
  assert (r0 = r) as -> by congruence.
  split; [done|]. split; [by rewrite length_fmap|].
  rewrite refresh_rows_update, Hone. simpl. eexists. split; [done|].
  unfold VaultRepository.update_values. by rewrite decide_True.
Qed.

Lemma upsert_replaces_in_place_witness :
  let refresh := Sample.row Sample.id2 Sample.alice REFRESH "s-1" "rt-1" 2 in
  let w := Sample.healthy [refresh] in
  let amb := mkAmbient Sample.id3 9 "iv9" in
  refresh_rows Sample.alice (vault w) = [refresh]
  ∧ ∃ i w',
      VaultService.upsert_refresh_token Sample.encryption amb Sample.alice
        (Some "rt-2") "s-2" None w = (Returns i, w')
      ∧ i = Sample.id2
      ∧ length (vault w') = 1%nat.
Proof.
  intros refresh w amb. split; [by vm_compute|]. do 2 eexists. split.
  - vm_compute. reflexivity.
  - destruct (upsert_replaces_in_place Sample.encryption amb Sample.alice (Some "rt-2")
                "s-2" None w refresh _ _ eq_refl eq_refl) as (Hid & Hlen & _).
    by split.
Defined.

(** An upsert for a user who has one REFRESH row returns that row's id and
    leaves the user with one REFRESH row of that id. *)
Lemma upsert_existing_returns encryption amb user_id token session_state_id
    attributes w r i w' :
  refresh_rows user_id (vault w) = [r] →
  VaultService.upsert_refresh_token encryption amb user_id token session_state_id
    attributes w = (Returns i, w') →
  i = AuthVault.id r
  ∧ ∃ r', refresh_rows user_id (vault w') = [r'] ∧ AuthVault.id r' = AuthVault.id r.
Proof.
  intros Hone. unfold VaultService.upsert_refresh_token. intros H.
  apply bind_returns in H as (encrypted & w1 & Henc & H).
  apply bind_returns in H as (hash & w2 & Hhash & H).
  apply lift_returns in Henc as [_ ->]. apply lift_returns in Hhash as [_ ->].
  apply repository_upsert_cases in H
    as [(Hnil & _)|(r0 & Hr0 & -> & ->)]; [congruence|].
  assert (r0 = r) as -> by congruence. split; [done|].
  rewrite refresh_rows_update, Hone. simpl. eexists. split; [done|].
  apply update_values_id.
Qed.

Lemma upsert_all_existing encryption user_id calls w r ids w' :
  refresh_rows user_id (vault w) = [r] →
  upsert_all encryption user_id calls w = (Returns ids, w') →
  Forall (λ i, i = AuthVault.id r) ids.
Proof.
  revert w r ids. induction calls as [|c calls IH]; intros w r ids Hone H; simpl in H.
  - apply ret_returns in H as [-> _]. constructor.
  - apply bind_returns in H as (i & w1 & Hcall & H).
    apply bind_returns in H as (rest & w2 & Hrest & H).
    apply ret_returns in H as [-> ->].
    destruct (upsert_existing_returns _ _ _ _ _ _ _ _ _ _ Hone Hcall)
      as (-> & r' & Hone' & Hid).
    constructor; [done|]. rewrite <- Hid. by eapply IH.
Qed.

(** X8. The id of a user's refresh token is stable: when a sequence of
    [upsert_refresh_token] calls for one user returns, every call returned
    the same id, whether the first call created the row or found it. *)
Theorem upsert_all_same_id encryption user_id calls w ids w' :
  upsert_all encryption user_id calls w = (Returns ids, w') →
  ∀ i j, i ∈ ids → j ∈ ids → i = j.
Proof.
  intros H.
  assert (Hall : ∃ k, Forall (λ i, i = k) ids).
  { destruct calls as [|c calls]; simpl in H.
    - apply ret_returns in H as [-> _]. exists "". constructor.
    - apply bind_returns in H as (i & w1 & Hcall & H).
      apply bind_returns in H as (rest & w2 & Hrest & H).
      apply ret_returns in H as [-> ->].
      unfold VaultService.upsert_refresh_token in Hcall.
      apply bind_returns in Hcall as (encrypted & w3 & Henc & Hcall).
      apply bind_returns in Hcall as (hash & w4 & Hhash & Hcall).
      apply repository_upsert_returns in Hcall as (r & Hone & <- & _).
      exists (AuthVault.id r). constructor; [done|].
      by eapply upsert_all_existing. }
  destruct Hall as [k Hall]. rewrite Forall_forall in Hall.
  intros i j Hi Hj. by rewrite (Hall i Hi), (Hall j Hj).
Qed.

Lemma upsert_all_same_id_witness :
  let calls :=
    [mkUpsertCall (mkAmbient Sample.id1 10 "iv1") (Some "rt-1") "s-1" None;
     mkUpsertCall (mkAmbient Sample.id2 20 "iv2") (Some "rt-2") "s-2" None;
     mkUpsertCall (mkAmbient Sample.id3 30 "iv3") (Some "rt-3") "s-3" None] in
  ∃ w',
    upsert_all Sample.encryption Sample.alice calls (Sample.healthy [])
    = (Returns [Sample.id1; Sample.id1; Sample.id1], w')
    ∧ ∀ i j, i ∈ [Sample.id1; Sample.id1; Sample.id1] →
             j ∈ [Sample.id1; Sample.id1; Sample.id1] → i = j.
Proof.
  intros calls. eexists. split; [vm_compute; reflexivity|].
  eapply (upsert_all_same_id Sample.encryption Sample.alice calls (Sample.healthy [])).
  vm_compute. reflexivity.
Defined.




(** ** Shared sessions *)

Lemma other_offline_entries_after_delete i1 i2 s (rows : list AuthVault.t) :
  (∀ r, r ∈ other_offline_entries i1 s rows → AuthVault.id r = i2) →
  other_offline_entries i1 s (filter (λ r, AuthVault.id r ≠ i2) rows) = [].
Proof.
  intros Honly. unfold other_offline_entries in *. rewrite list_filter_filter.
  induction rows as [|r rows IH]; [done|].
  rewrite filter_cons. destruct (decide _) as [(Hp & Hne)|_].
  - destruct Hne. apply Honly, list_elem_of_filter. split; [done|left].
  - apply IH. intros r' Hr'. apply Honly.
    apply list_elem_of_filter in Hr' as [? ?].
    apply list_elem_of_filter. split; [done|by right].
Qed.

(** X10. The shared-session check follows the rows: with the database
    answering, [check_shared_token] for a session, excluding one id, over
    OFFLINE entries is [True] while another OFFLINE entry of the session is
    there; once the entries that shared the session, all of one other id,
    are deleted, the same check is [False]. *)
Theorem shared_session_after_delete session_state_id i1 i2 w :
  fault_at 0 (db_faults w) = None →
  fault_at 1 (db_faults w) = None →
  other_offline_entries i1 session_state_id (vault w) ≠ [] →
  (∀ r, r ∈ other_offline_entries i1 session_state_id (vault w) → AuthVault.id r = i2) →
  VaultService.check_shared_token session_state_id i1 (Some OFFLINE) w
  = (Returns true, mkWorld (vault w) (tail (db_faults w)) (upstream w))
  ∧ (_ <- VaultService.delete_token i2 ;;
     VaultService.check_shared_token session_state_id i1 (Some OFFLINE)) w
    = (Returns false,
       mkWorld (filter (λ r, AuthVault.id r ≠ i2) (vault w))
         (tail (tail (db_faults w))) (upstream w)).
Proof.
  intros Hdb0 Hdb1 Hshared Honly. split.
  - rewrite check_shared_token_run by done. by rewrite bool_decide_eq_true_2.
  - unfold VaultService.delete_token.
    rewrite (bind_of_returns _ _ _ _ _ (delete_run i2 w Hdb0)).
    pose proof (check_shared_token_run session_state_id i1
                  (mkWorld (filter (λ r, AuthVault.id r ≠ i2) (vault w))
                     (tail (db_faults w)) (upstream w))) as Hcheck.
    cbn [vault db_faults upstream] in Hcheck. rewrite fault_at_tail in Hcheck.
    rewrite (Hcheck Hdb1), other_offline_entries_after_delete by done.
    by rewrite bool_decide_eq_false_2 by auto.
Qed.

Lemma shared_session_after_delete_witness :
  let e1 := Sample.row Sample.id1 Sample.alice OFFLINE "s-1" "ot-1" 1 in
  let e2 := Sample.row Sample.id2 Sample.alice OFFLINE "s-1" "ot-2" 2 in
  let w := Sample.healthy [e1; e2] in
  other_offline_entries Sample.id1 "s-1" (vault w) ≠ []
  ∧ VaultService.check_shared_token "s-1" Sample.id1 (Some OFFLINE) w
    = (Returns true, w)
  ∧ (_ <- VaultService.delete_token Sample.id2 ;;
     VaultService.check_shared_token "s-1" Sample.id1 (Some OFFLINE)) w
    = (Returns false, Sample.healthy [e1]).
Proof.
  intros e1 e2 w.
  assert (Hshared : other_offline_entries Sample.id1 "s-1" (vault w) ≠ [])
    by (by vm_compute).
  split; [exact Hshared|].
  apply (shared_session_after_delete "s-1" Sample.id1 Sample.id2 w eq_refl eq_refl
           Hshared).
  intros r Hr. vm_compute in Hr. apply list_elem_of_In in Hr as [<-|[]].
  reflexivity.
Defined.

(** ** Revoking a session at the provider *)

(** X11. [revoke_session] returns exactly when the provider grants the admin
    token and answers the session delete with 200 or 204. The session delete
    is requested only after the admin token was granted: when the admin
    token is refused, the only request made is the one for the admin token.
    A granted token followed by another status gives a [KeycloakError]
    ("Session revocation failed") carrying the provider's text. *)
Theorem revoke_session_outcomes keycloak session_id w :
  ((KeycloakService.revoke_session keycloak session_id w).1 = Returns tt
   ↔ accepts_revocation keycloak session_id)
  ∧ upstream (KeycloakService.revoke_session keycloak session_id w).2
    = (upstream w
       ++ ClientCredentialsGrant
          :: match a_token_client_credentials keycloak with
             | SdkResult _ => [DeleteSession session_id]
             | _ => []
             end)%list
  ∧ (∀ admin_token,
       a_token_client_credentials keycloak = SdkResult admin_token →
       (delete_session keycloak session_id).1 ∉ [200; 204] →
       (KeycloakService.revoke_session keycloak session_id w).1
       = Raises (AuthManagerExc
                   (mkAuthErr KeycloakError "Session revocation failed" "keycloak_error"
                      {[ "error" := VStr (delete_session keycloak session_id).2 ]}))).
Proof.
  unfold accepts_revocation, KeycloakService.revoke_session,
    KeycloakService._get_admin_token, bind, call_upstream, from_sdk.
  destruct (a_token_client_credentials keycloak) as [t|c b|e]; simpl.
  - destruct (delete_session keycloak session_id) as [status text]. simpl.
    case_bool_decide as Hstatus; simpl.
    + rewrite <- app_assoc. repeat split; eauto. by intros _ _ ?.
    + rewrite <- app_assoc. repeat split; try done. by intros [_ ?].
  - repeat split; try done. by intros [[? ?] _].
  - repeat split; try done. by intros [[? ?] _].
Qed.

(** ** What the caller is answered *)

(** X12. A rewrap with no error type does not change what the caller is
    answered with, apart from an empty message: the handler reports the
    rewrapped error with the status, the code, the reason and the details of
    the error that was raised, and with its message unless that is empty. A
    rewrap with an error type is reported with the status of that type's
    default code, the supplied message and no details. *)
Theorem rewrap_response {A} exc msg (body : M A) w w1 E :
  body w = (Raises (AuthManagerExc E), w1) →
  ∃ E',
    auth_error_guard exc msg body w = (Raises (AuthManagerExc E'), w1)
    ∧ match exc with
      | None =>
          ∀ r, auth_manager_error_handler E = Returns r →
               auth_manager_error_handler E'
               = Returns
                   {| content :=
                        {| Err.error := if String.eqb (message E) "" then msg
                                        else message E;
                           Err.code := Err.code (content r);
                           Err.reason := Err.reason (content r);
                           Err.details := Err.details (content r) |};
                      status_code := status_code r |}
      | Some cls =>
          auth_manager_error_handler E'
          = Returns
              {| content :=
                   {| Err.error := msg;
                      Err.code := default_code cls;
                      Err.reason := None;
                      Err.details := Some ∅ |};
                 status_code := status_of_code (default_code cls) |}
      end.
Proof.
  intros Hbody. unfold auth_error_guard, try_except. rewrite Hbody.
  destruct exc as [cls|]; eexists; (split; [reflexivity|]).
  - done.
  - intros r. unfold auth_manager_error_handler, new_error, message_or. simpl.
    destruct (details E !! "reason") as [[s|z]|]; [|done|]; by intros [= <-].
Qed.

Lemma rewrap_response_witness :
  let body := VaultService.retrieve_and_decrypt Sample.encryption Sample.id1 in
  let w := Sample.healthy [] in
  let E := new_error TokenNotFoundError "Token not found" None None in
  body w = (Raises (AuthManagerExc E), w)
  ∧ ∃ E',
      auth_error_guard None "No data found for this persistent token id" body w
      = (Raises (AuthManagerExc E'), w)
      ∧ auth_manager_error_handler E'
        = Returns (mkErrorResponse
                     (Err.mk "Token not found" "token_not_found" None (Some ∅)) 404).
Proof.
  intros body w E.
  assert (Hbody : body w = (Raises (AuthManagerExc E), w)) by (vm_compute; reflexivity).
  split; [exact Hbody|].
  destruct (rewrap_response None "No data found for this persistent token id"
              body w w E Hbody) as (E' & Hrun & Hanswer).
  exists E'. split; [exact Hrun|].
  exact (Hanswer _ eq_refl).
Defined.

(** X13. The exception classes and the table of statuses agree: the default
    code of every class other than the base class is the name of a key of
    the table, so an error raised with its default code is reported with that
    key's status; the base class's default code, "error", is not a key and
    is reported with 500. *)
Theorem default_codes_have_a_status cls :
  match cls with
  | AuthManagerError =>
      (∀ k, key_name k ≠ default_code cls) ∧ status_of_code (default_code cls) = 500
  | _ =>
      ∃ k, default_code cls = key_name k
           ∧ status_of_code (default_code cls) = errors_mapping k
  end.
Proof.
  destruct cls; try (eexists; split; [reflexivity|by vm_compute]).
  split; [|by vm_compute]. by intros [].
Qed.

(** ** Minting an offline token *)

(** How the service's lookup by session got to return: exactly one row
    matched, it has its token material, and that decrypts to the token
    returned. *)
Lemma retrieve_or_raise_returns_row encryption session_state_id token_type w entry t w' :
  VaultService.retrieve_or_raise_by_session_state_id encryption
    session_state_id token_type w = (Returns (entry, t), w') →
  ∃ row ct v,
    where_token_type token_type
      (filter (λ r, AuthVault.session_state_id r = session_state_id) (vault w)) = [row]
    ∧ entry = VaultEntry.model_validate row
    ∧ AuthVault.encrypted_token row = Some ct
    ∧ AuthVault.iv row = Some v
    ∧ decrypt_token encryption ct v = Returns t
    ∧ w' = mkWorld (vault w) (tail (db_faults w)) (upstream w).
Proof.
  unfold VaultService.retrieve_or_raise_by_session_state_id. intros H.
  apply bind_returns in H as (e & w1 & Hget & H).
  apply raise_if_not_found_guard_returns in Hget.
  unfold VaultRepository.retrieve_or_raise_by_session_state_id in Hget.
  apply bind_returns in Hget as (result & w2 & Hsel & Hget).
  apply execute_returns in Hsel as (rows & [= <- <-] & ->).
  apply bind_returns in Hget as (row & w3 & Hone & Hget).
  apply lift_returns in Hone as [Hone ->]. apply ret_returns in Hget as [-> ->].
  apply invariant_guard_returns in H as [_ H].
  apply bind_returns in H as (ct & w4 & Hct & H).
  apply bind_returns in H as (iv & w5 & Hiv & H).
  apply bind_returns in H as (pt & w6 & Hpt & H).
  apply lift_returns in Hpt as [Hdec ->]. apply ret_returns in H as [[= -> ->] ->].
  unfold assert_is_not_none in Hct, Hiv. simpl in Hct, Hiv.
  destruct (AuthVault.encrypted_token row) as [ct'|] eqn:Hct'; [|done].
  destruct (AuthVault.iv row) as [iv'|] eqn:Hiv'; [|done].
  apply ret_returns in Hct as [-> ->]. apply ret_returns in Hiv as [-> ->].
  exists row, ct', iv'. repeat split; try done.
  destruct (where_token_type _ _) as [|? [|? ?]]; simpl in Hone; by simplify_eq.
Qed.

(** How [make_offline_token] got to return. *)
Lemma make_offline_token_returns amb validated_token keycloak service w r w' :
  make_offline_token amb validated_token keycloak service w = (Returns r, w') →
  ∃ source ct v t response rotated encrypted hash,
    where_token_type (Some OFFLINE)
      (filter (λ r, AuthVault.session_state_id r
                    = ValidatedToken.session_state_id validated_token) (vault w))
    = [source]
    ∧ AuthVault.encrypted_token source = Some ct
    ∧ AuthVault.iv source = Some v
    ∧ decrypt_token service ct v = Returns t
    ∧ a_refresh_token keycloak t = SdkResult response
    ∧ KeycloakTokenResponse.refresh_token response = Some rotated
    ∧ encrypt_token service (Some rotated) (fresh_iv amb) = Returns encrypted
    ∧ hash_token service (Some rotated) = Returns hash
    ∧ r = mkOk (OfflineTokenResult.mk (fresh_uuid amb)
                  (KeycloakTokenResponse.session_state response))
    ∧ w' = mkWorld
             (vault w
              ++ [stored_row
                    (mkStoreCall amb (ValidatedToken.user_id validated_token)
                       (Some rotated) OFFLINE
                       (KeycloakTokenResponse.session_state response)
                       (Some {[ "from" := VStr (AuthVault.id source) ]}))
                    encrypted hash])%list
             (tail (tail (tail (db_faults w))))
             (upstream w ++ [RefreshGrant t])%list.
Proof.
  unfold make_offline_token. intros H.
  apply bind_returns in H as ([entry t] & w1 & Hfound & H).
  apply auth_error_guard_returns in Hfound.
  apply retrieve_or_raise_returns_row in Hfound
    as (source & ct & v & Hq & -> & Hct & Hv & Hdec & ->).
  apply bind_returns in H as (response & w2 & Hgrant & H).
  apply auth_error_guard_returns in Hgrant.
  unfold request_offline_token in Hgrant.
  apply bind_returns in Hgrant as ([] & w3 & Hcall & Hgrant).
  injection Hcall as <-.
  unfold from_sdk in Hgrant.
  destruct (a_refresh_token keycloak t) as [reply| |] eqn:Hreply; try discriminate.
  apply ret_returns in Hgrant as [-> ->].
  apply invariant_guard_returns in H as [Hrot H].
  apply bool_decide_eq_false in Hrot.
  destruct (KeycloakTokenResponse.refresh_token reply) as [rotated|] eqn:Hrotated;
    [|done].
  apply bind_returns in H as (new_entry & w4 & Hstore & H).
  apply store_returns in Hstore as (encrypted & hash & Henc & Hhash & -> & _ & ->).
  apply ret_returns in H as [-> ->].
  exists source, ct, v, t, reply, rotated, encrypted, hash.
  repeat split; done.
Qed.

(** X14. What a minted offline token leaves behind: when [make_offline_token]
    returns, the session of the caller had exactly one OFFLINE entry, the
    provider was asked once, for a refresh grant with that entry's decrypted
    token, and answered with a refresh token; the vault is the one of before,
    untouched, followed by one new OFFLINE row of the caller that holds the
    encryption of that refresh token under the generated iv, the session
    state of the provider's answer and the attribute ["from"] naming the
    entry it was minted from; the response names the new row. *)
Theorem make_offline_token_stores amb validated_token keycloak service w r w' :
  make_offline_token amb validated_token keycloak service w = (Returns r, w') →
  ∃ source new plaintext,
    where_token_type (Some OFFLINE)
      (filter (λ r, AuthVault.session_state_id r
                    = ValidatedToken.session_state_id validated_token) (vault w))
    = [source]
    ∧ vault w' = (vault w ++ [new])%list
    ∧ upstream w' = (upstream w ++ [RefreshGrant plaintext])%list
    ∧ (∃ ct v, AuthVault.encrypted_token source = Some ct
               ∧ AuthVault.iv source = Some v
               ∧ decrypt_token service ct v = Returns plaintext)
    ∧ (∃ response rotated encrypted,
         a_refresh_token keycloak plaintext = SdkResult response
         ∧ KeycloakTokenResponse.refresh_token response = Some rotated
         ∧ encrypt_token service (Some rotated) (fresh_iv amb) = Returns encrypted
         ∧ AuthVault.encrypted_token new = Some encrypted
         ∧ AuthVault.session_state_id new = KeycloakTokenResponse.session_state response)
    ∧ AuthVault.iv new = Some (fresh_iv amb)
    ∧ AuthVault.token_type new = OFFLINE
    ∧ AuthVault.user_id new = ValidatedToken.user_id validated_token
    ∧ AuthVault.attributes new = Some {[ "from" := VStr (AuthVault.id source) ]}
    ∧ OfflineTokenResult.persistent_token_id (data r) = AuthVault.id new
    ∧ OfflineTokenResult.session_state_id (data r) = AuthVault.session_state_id new.
Proof.
  intros H. apply make_offline_token_returns in H
    as (source & ct & v & t & response & rotated & encrypted & hash
        & Hq & Hct & Hv & Hdec & Hreply & Hrot & Henc & Hhash & -> & ->).
  eexists source, _, t. split; [done|]. split; [reflexivity|].
  split; [done|]. split; [eauto|]. split; [|done].
  exists response, rotated, encrypted. done.
Qed.

Lemma make_offline_token_stores_witness :
  let source := Sample.row Sample.id1 Sample.alice OFFLINE "s-1" "ot-1" 1 in
  let w := Sample.healthy [source] in
  let keycloak :=
    Sample.provider (Sample.introspection true (Some Sample.alice) (Some "s-1"))
      (Sample.token_response (Some "ot-2") "s-9") 204 in
  ∃ r w',
    make_offline_token (mkAmbient Sample.id2 5 "iv5")
      (ValidatedToken.mk Sample.alice "s-1" "access") keycloak Sample.encryption w
    = (Returns r, w')
    ∧ ∃ new, vault w' = [source; new]
             ∧ AuthVault.attributes new = Some {[ "from" := VStr Sample.id1 ]}
             ∧ OfflineTokenResult.persistent_token_id (data r) = AuthVault.id new.
Proof.
  intros source w keycloak. do 2 eexists. split; [vm_compute; reflexivity|].
  destruct (make_offline_token_stores (mkAmbient Sample.id2 5 "iv5")
              (ValidatedToken.mk Sample.alice "s-1" "access") keycloak
              Sample.encryption w _ _ eq_refl)
    as (source' & new & t & Hq & Hvault & _ & _ & _ & _ & _ & _ & Hattrs & Hid & _).
  injection Hq as <-.
  exists new. by repeat split.
Defined.

(** X15. The provider answering the refresh grant without a refresh token:
    once the session's offline entry is found, [make_offline_token] raises
    [KeycloakError] ("Could not generate new token") and stores nothing. *)
Theorem make_offline_token_without_refresh_token amb validated_token keycloak service
    w entry decrypted w1 response :
  VaultService.retrieve_or_raise_by_session_state_id service
    (ValidatedToken.session_state_id validated_token) (Some OFFLINE) w
  = (Returns (entry, decrypted), w1) →
  a_refresh_token keycloak decrypted = SdkResult response →
  KeycloakTokenResponse.refresh_token response = None →
  make_offline_token amb validated_token keycloak service w
  = (Raises (raised_as KeycloakError "Could not generate new token"),
     mkWorld (vault w) (db_faults w1) (upstream w ++ [RefreshGrant decrypted])%list).
Proof.
  intros Hfound Hreply Hnone.
  pose proof (retrieve_or_raise_returns _ _ _ _ _ _ _ Hfound) as (_ & <- & <-).
  unfold make_offline_token.
  rewrite (bind_of_returns _ _ _ _ _ (auth_error_guard_of_returns _ _ _ _ _ _ Hfound)).
  unfold bind, auth_error_guard, try_except, request_offline_token, bind, call_upstream.
  rewrite Hreply. simpl. unfold invariant_guard. by rewrite Hnone.
Qed.

Lemma make_offline_token_without_refresh_token_witness :
  let source := Sample.row Sample.id1 Sample.alice OFFLINE "s-1" "ot-1" 1 in
  let w := Sample.healthy [source] in
  let response := Sample.token_response None "s-1" in
  let keycloak :=
    Sample.provider (Sample.introspection true (Some Sample.alice) (Some "s-1"))
      response 204 in
  a_refresh_token keycloak "ot-1" = SdkResult response
  ∧ make_offline_token (mkAmbient Sample.id2 5 "iv5")
      (ValidatedToken.mk Sample.alice "s-1" "access") keycloak Sample.encryption w
    = (Raises (raised_as KeycloakError "Could not generate new token"),
       mkWorld [source] [] [RefreshGrant "ot-1"]).
Proof.
  intros source w response keycloak. split; [reflexivity|].
  exact (make_offline_token_without_refresh_token (mkAmbient Sample.id2 5 "iv5")
           (ValidatedToken.mk Sample.alice "s-1" "access") keycloak Sample.encryption
           w (VaultEntry.model_validate source) "ot-1" w response
           eq_refl eq_refl eq_refl).
Defined.




(** ** Storing a refresh token through the API *)

(** X17. [store_refresh_token]: when it returns, the caller has exactly one
    REFRESH row; that row holds the encryption of the token of the request
    body under the generated iv and its hash, the session state of the
    caller and no attributes, and the response carries its id. *)
Theorem store_refresh_token_upserts amb validated_token service payload w r w' :
  store_refresh_token amb validated_token service payload w = (Returns r, w') →
  ∃ row encrypted hash,
    refresh_rows (ValidatedToken.user_id validated_token) (vault w') = [row]
    ∧ RefreshTokenIdResult.persistent_token_id (data r) = AuthVault.id row
    ∧ encrypt_token service (Some (RefreshTokenPayload.refresh_token payload))
        (fresh_iv amb) = Returns encrypted
    ∧ hash_token service (Some (RefreshTokenPayload.refresh_token payload))
      = Returns hash
    ∧ AuthVault.encrypted_token row = Some encrypted
    ∧ AuthVault.iv row = Some (fresh_iv amb)
    ∧ AuthVault.token_hash row = Some hash
    ∧ AuthVault.session_state_id row = ValidatedToken.session_state_id validated_token
    ∧ AuthVault.attributes row = None.
Proof.
  unfold store_refresh_token. intros H.
  apply bind_returns in H as (i & w1 & Hup & H).
  apply ret_returns in H as [-> ->].
  apply auth_error_guard_returns in Hup.
  unfold VaultService.upsert_refresh_token in Hup.
  apply bind_returns in Hup as (encrypted & w2 & Henc & Hup).
  apply bind_returns in Hup as (hash & w3 & Hhash & Hup).
  apply lift_returns in Henc as [Henc ->]. apply lift_returns in Hhash as [Hhash ->].
  apply repository_upsert_returns in Hup as (row & Hrow & <- & ? & ? & ? & ? & ?).
  exists row, encrypted, hash. done.
Qed.

Lemma store_refresh_token_upserts_witness :
  let old := Sample.row Sample.id1 Sample.alice REFRESH "s-0" "rt-0" 1 in
  ∃ r w',
    store_refresh_token (mkAmbient Sample.id2 5 "iv5")
      (ValidatedToken.mk Sample.alice "s-1" "access") Sample.encryption
      (RefreshTokenPayload.mk "rt-1") (Sample.healthy [old]) = (Returns r, w')
    ∧ ∃ row, refresh_rows Sample.alice (vault w') = [row]
             ∧ RefreshTokenIdResult.persistent_token_id (data r) = AuthVault.id row
             ∧ AuthVault.session_state_id row = "s-1".
Proof.
  intros old. do 2 eexists. split; [vm_compute; reflexivity|].
  destruct (store_refresh_token_upserts (mkAmbient Sample.id2 5 "iv5")
              (ValidatedToken.mk Sample.alice "s-1" "access") Sample.encryption
              (RefreshTokenPayload.mk "rt-1") (Sample.healthy [old]) _ _ eq_refl)
    as (row & _ & _ & Hrow & Hid & _ & _ & _ & _ & _ & Hsession & _).
  exists row. by repeat split.
Defined.

(** ** Fetching an access token *)

(** How [retrieve_and_decrypt] got to return: exactly one row has the id, it
    has its token material, and that decrypts to the token returned. *)
Lemma retrieve_and_decrypt_returns encryption i w entry t w' :
  VaultService.retrieve_and_decrypt encryption i w = (Returns (entry, t), w') →
  ∃ row ct v,
    filter (λ r, AuthVault.id r = i) (vault w) = [row]
    ∧ entry = VaultEntry.model_validate row
    ∧ AuthVault.encrypted_token row = Some ct
    ∧ AuthVault.iv row = Some v
    ∧ decrypt_token encryption ct v = Returns t
    ∧ w' = mkWorld (vault w) (tail (db_faults w)) (upstream w).
Proof.
  unfold VaultService.retrieve_and_decrypt. intros H.
  apply bind_returns in H as (e & w1 & Hget & H).
  apply raise_if_not_found_guard_returns in Hget.
  unfold VaultRepository.retrieve in Hget.
  apply bind_returns in Hget as (result & w2 & Hsel & Hget).
  apply execute_returns in Hsel as (rows & [= <- <-] & ->).
  apply bind_returns in Hget as (row & w3 & Hone & Hget).
  apply lift_returns in Hone as [Hone ->]. apply ret_returns in Hget as [-> ->].
  apply bind_returns in H as (pt & w4 & Hdec & H).
  apply ret_returns in H as [[= -> ->] ->].
  apply invariant_guard_returns in Hdec as [_ Hdec].
  apply bind_returns in Hdec as (ct & w5 & Hct & Hdec).
  apply bind_returns in Hdec as (iv & w6 & Hiv & Hdec).
  apply lift_returns in Hdec as [Hdec ->].
  unfold assert_is_not_none in Hct, Hiv. simpl in Hct, Hiv.
  destruct (AuthVault.encrypted_token row) as [ct'|] eqn:Hct'; [|done].
  destruct (AuthVault.iv row) as [iv'|] eqn:Hiv'; [|done].
  apply ret_returns in Hct as [-> ->]. apply ret_returns in Hiv as [-> ->].
  exists row, ct', iv'. repeat split; try done.
  destruct (filter _ (vault w)) as [|? [|? ?]]; simpl in Hone; by simplify_eq.
Qed.



(** X19. What the caller sees of a provider failure: when the refresh grant
    of [get_access_token] comes back as a [KeycloakPostError], the operation
    raises a domain error that the handler reports with status 502, the code
    [keycloak_error], the gateway's message "Token refresh failed" and, as
    details, the provider's status and raw body; the rows are left as they
    are. *)
Theorem get_access_token_provider_failure amb keycloak service i w entry t w1
    response_code response_body :
  VaultService.retrieve_and_decrypt service i w = (Returns (entry, t), w1) →
  a_refresh_token keycloak t = KeycloakPostError response_code response_body →
  ∃ E,
    get_access_token amb keycloak service i w
    = (Raises (AuthManagerExc E),
       mkWorld (vault w) (db_faults w1) (upstream w ++ [RefreshGrant t])%list)
    ∧ auth_manager_error_handler E
      = Returns
          {| content :=
               {| Err.error := "Token refresh failed";
                  Err.code := "keycloak_error";
                  Err.reason := None;
                  Err.details := Some {[ "code" := VInt response_code;
                                         "body" := VStr response_body ]} |};
             status_code := 502 |}.
Proof.
  intros Hfound Hreply.
  destruct (retrieve_and_decrypt_returns _ _ _ _ _ _ Hfound)
    as (row & ct & v & _ & _ & _ & _ & _ & Hw1).
  eexists. split.
  - unfold get_access_token.
    rewrite (bind_of_returns _ _ _ _ _ (auth_error_guard_of_returns _ _ _ _ _ _ Hfound)).
    unfold bind, auth_error_guard, try_except, KeycloakService.refresh_access_token,
      bind, call_upstream.
    rewrite Hreply, Hw1. reflexivity.
  - unfold auth_manager_error_handler, new_error, message_or. simpl.
    by simplify_map_eq.
Qed.

Lemma get_access_token_provider_failure_witness :
  let offline := Sample.row Sample.id1 Sample.alice OFFLINE "s-1" "ot-1" 1 in
  let w := Sample.healthy [offline] in
  let keycloak :=
    mkProvider (λ _, SdkRaises (OtherError "unused"))
      (λ _, KeycloakPostError 400 "invalid_grant")
      (SdkResult "admin-token") (λ _, (204, "")) in
  VaultService.retrieve_and_decrypt Sample.encryption Sample.id1 w
  = (Returns (VaultEntry.model_validate offline, "ot-1"), w)
  ∧ ∃ E,
      get_access_token (mkAmbient Sample.id2 5 "iv5") keycloak Sample.encryption
        Sample.id1 w
      = (Raises (AuthManagerExc E), mkWorld [offline] [] [RefreshGrant "ot-1"])
      ∧ status_code <$> (match auth_manager_error_handler E with
                         | Returns r => Some r
                         | Raises _ => None
                         end) = Some 502.
Proof.
  intros offline w keycloak. split; [vm_compute; reflexivity|].
  destruct (get_access_token_provider_failure (mkAmbient Sample.id2 5 "iv5") keycloak
              Sample.encryption Sample.id1 w (VaultEntry.model_validate offline) "ot-1"
              w 400 "invalid_grant" eq_refl eq_refl)
    as (E & Hrun & Hanswer).
  exists E. split; [exact Hrun|]. by rewrite Hanswer.
Defined.

(** ** The optional lookup by session *)

(** X20. What [retrieve_by_session_state_id] of the vault service tells when
    it returns: [None] means that no row matched the session and type; an
    entry means that exactly one row matched, that it is that row, and that
    the token returned is the decryption of its encrypted token under its
    iv. The rows are left as they are. *)
Theorem retrieve_by_session_returns encryption session_state_id token_type w found w' :
  VaultService.retrieve_by_session_state_id encryption session_state_id token_type w
  = (Returns found, w') →
  vault w' = vault w
  ∧ match found with
    | None =>
        where_token_type token_type
          (filter (λ r, AuthVault.session_state_id r = session_state_id) (vault w))
        = []
    | Some (entry, t) =>
        ∃ row ct v,
          where_token_type token_type
            (filter (λ r, AuthVault.session_state_id r = session_state_id) (vault w))
          = [row]
          ∧ entry = VaultEntry.model_validate row
          ∧ AuthVault.encrypted_token row = Some ct
          ∧ AuthVault.iv row = Some v
          ∧ decrypt_token encryption ct v = Returns t
    end.
Proof.
  unfold VaultService.retrieve_by_session_state_id,
    VaultRepository.retrieve_by_session_state_id. intros H.
  apply bind_returns in H as (entry & w1 & Hget & H).
  apply bind_returns in Hget as (result & w2 & Hsel & Hget).
  apply execute_returns in Hsel as (rows & [= <- <-] & ->).
  apply bind_returns in Hget as (o & w3 & Hone & Hget).
  apply lift_returns in Hone as [Hone ->]. apply ret_returns in Hget as [-> ->].
  apply scalar_one_or_none_returns in Hone as [[Hq ->]|(row & Hq & ->)]; simpl in H.
  - by apply ret_returns in H as [-> ->].
  - apply bind_returns in H as (ct & w4 & Hct & H).
    apply bind_returns in H as (iv & w5 & Hiv & H).
    apply bind_returns in H as (pt & w6 & Hpt & H).
    apply lift_returns in Hpt as [Hdec ->]. apply ret_returns in H as [-> ->].
    unfold assert_is_not_none in Hct, Hiv.
    destruct (AuthVault.encrypted_token row) as [ct'|] eqn:Hct'; [|done].
    destruct (AuthVault.iv row) as [iv'|] eqn:Hiv'; [|done].
    apply ret_returns in Hct as [-> ->]. apply ret_returns in Hiv as [-> ->].
    split; [done|]. exists row, ct', iv'. done.
Qed.

Lemma retrieve_by_session_returns_witness :
  let row := Sample.row Sample.id1 Sample.alice OFFLINE "s-1" "ot-1" 1 in
  let w := Sample.healthy [row] in
  VaultService.retrieve_by_session_state_id Sample.encryption "s-1" (Some OFFLINE) w
  = (Returns (Some (VaultEntry.model_validate row, "ot-1")), w)
  ∧ ∃ row' ct v,
      where_token_type (Some OFFLINE)
        (filter (λ r, AuthVault.session_state_id r = "s-1") (vault w)) = [row']
      ∧ VaultEntry.model_validate row = VaultEntry.model_validate row'
      ∧ AuthVault.encrypted_token row' = Some ct
      ∧ AuthVault.iv row' = Some v
      ∧ decrypt_token Sample.encryption ct v = Returns "ot-1".
Proof.
  intros row w.
  assert (Hrun : VaultService.retrieve_by_session_state_id Sample.encryption "s-1"
                   (Some OFFLINE) w
                 = (Returns (Some (VaultEntry.model_validate row, "ot-1")), w))
    by (vm_compute; reflexivity).
  split; [exact Hrun|].
  exact (proj2 (retrieve_by_session_returns Sample.encryption "s-1" (Some OFFLINE) w
                  _ _ Hrun)).
Defined.

(** ** The algorithm of the state token *)

Section StateTokenAlgorithm.
Variable hmac_sha256 : string → segment * segment → string.

(** X21. The state token's algorithm is fixed: a token whose header does not
    name HS256 as its algorithm (another algorithm, "none", no algorithm, or
    a header that is not a JSON object) is refused with
    [InvalidStateTokenError], whatever its payload and its signature. *)
Theorem parse_ack_state_algorithm_pinned secret now token :
  (∀ header, jws_header token = JsonObject header →
             header !! "alg" ≠ Some (VStr "HS256")) →
  fails_invalid_state_token
    (AcknowledgementKeycloakStateService.parse_ack_state hmac_sha256 secret now token).
Proof.
  intros Halg.
  unfold AcknowledgementKeycloakStateService.parse_ack_state, jwt.decode.
  destruct (jws_header token) as [header|bytes]; [|by eexists].
  specialize (Halg header eq_refl).
  destruct (header !! "alg") as [[alg|z]|]; try by eexists.
  case_bool_decide as Hin; simpl; [|by eexists].
  apply list_elem_of_singleton in Hin as ->. by destruct Halg.
Qed.

End StateTokenAlgorithm.

Lemma parse_ack_state_algorithm_pinned_witness :
  let unsigned :=
    mkCompactToken (JsonObject {[ "alg" := VStr "none"; "typ" := VStr "JWT" ]})
      (JsonObject {[ "user_id" := VStr Sample.alice;
                     "session_state_id" := VStr "s-1" ]})
      "" in
  (∀ header, jws_header unsigned = JsonObject header →
             header !! "alg" ≠ Some (VStr "HS256"))
  ∧ fails_invalid_state_token
      (AcknowledgementKeycloakStateService.parse_ack_state Sample.hmac "secret" 1000
         unsigned).
Proof.
  intros unsigned.
  assert (Halg : ∀ header, jws_header unsigned = JsonObject header →
                           header !! "alg" ≠ Some (VStr "HS256"))
    by (intros header [= <-]; by vm_compute).
  split; [exact Halg|].
  exact (parse_ack_state_algorithm_pinned Sample.hmac "secret" 1000 unsigned Halg).
Defined.

(** ** Revoking what is not there *)

(** X22. [revoke_offline_token] on an id that no row has, or whose row has
    no token material, the database answering: the operation fails with
    [TokenNotFoundError] ("No offline token was found", status 404); it
    deletes nothing and asks nothing from the provider. *)
Theorem revoke_offline_token_not_found keycloak encryption i w :
  fault_at 0 (db_faults w) = None →
  (filter (λ r, AuthVault.id r = i) (vault w) = []
   ∨ ∃ row, filter (λ r, AuthVault.id r = i) (vault w) = [row]
            ∧ no_encrypted_data (VaultEntry.model_validate row) = true) →
  revoke_offline_token keycloak encryption i w
  = (Raises (AuthManagerExc
               (mkAuthErr TokenNotFoundError "No offline token was found"
                  "token_not_found" ∅)),
     mkWorld (vault w) (tail (db_faults w)) (upstream w))
  ∧ status_of_code "token_not_found" = 404.
Proof.
  intros Hdb Hcase. split; [|by vm_compute].
  unfold revoke_offline_token, bind at 1, auth_error_guard at 1, try_except,
    VaultService.retrieve_and_decrypt, VaultRepository.retrieve,
    raise_if_not_found_guard, try_except, bind.
  rewrite execute_goes by done. cbn [fst snd].
  destruct Hcase as [->|(row & -> & Hbare)]; simpl; [done|].
  unfold invariant_guard. by rewrite Hbare.
Qed.

Lemma revoke_offline_token_not_found_witness :
  let other := Sample.row Sample.id1 Sample.alice OFFLINE "s-1" "ot-1" 1 in
  let w := Sample.healthy [other] in
  let keycloak :=
    Sample.provider (Sample.introspection true (Some Sample.alice) (Some "s-1"))
      (Sample.token_response None "s-1") 204 in
  fault_at 0 (db_faults w) = None
  ∧ revoke_offline_token keycloak Sample.encryption Sample.id2 w
    = (Raises (raised_as TokenNotFoundError "No offline token was found"), w).
Proof.
  intros other w keycloak. split; [reflexivity|].
  refine (proj1 (revoke_offline_token_not_found keycloak Sample.encryption Sample.id2 w
                   eq_refl _)).
  left. by vm_compute.
Defined.

(** ** Failing after the delete *)




(** The census failing: the failure of the database comes out as it is,
    nothing was requested from the provider, and the row is gone. *)
Example revocation_census_fails :
  let first := Sample.row Sample.id1 Sample.alice OFFLINE "s-1" "ot-1" 1 in
  let second := Sample.row Sample.id2 Sample.alice OFFLINE "s-1" "ot-2" 2 in
  let keycloak :=
    Sample.provider (Sample.introspection true (Some Sample.alice) (Some "s-1"))
      (Sample.token_response None "s-1") 204 in
  revoke_offline_token keycloak Sample.encryption Sample.id1
    (mkWorld [first; second] [None; None; Some (OtherError "OperationalError")] [])
  = (Raises (OtherError "OperationalError"), mkWorld [second] [] []).
Proof. vm_compute. reflexivity. Qed.
